(** * Smart Expense Tracker (Dsbda.py): a shallow embedding and its properties

    The program is a Streamlit script over one SQLite file with three tables
    (users, expenses, budgets), SHA-256 password digests, and three pandas
    aggregations behind the dashboard.  The development follows the script:

    - [SHA256]    hashlib.sha256(...).hexdigest(), on bytes;
    - [Sqlite]    the statements the script issues, on tables kept as row lists;
    - [Pandas]    groupby/sum, resample('M'), merge(how='right'), fillna,
                  over IEEE binary64 ([PrimFloat]);
    - [App]       the functions of Dsbda.py, with their names;
    - [Script]    the top level of Dsbda.py, one run per click. *)

From Stdlib Require Import List String Ascii ZArith Lia Bool Arith.
From Stdlib Require Import Floats Sorted Permutation.
Import ListNotations.

(* ================================================================== *)
(** ** SHA-256 (FIPS 180-4), as hashlib.sha256 computes it *)
(* ================================================================== *)

Module SHA256.
Local Open Scope Z_scope.

Definition wrap32 (x : Z) : Z := x mod 2 ^ 32.
Definition add32 (x y : Z) : Z := wrap32 (x + y).
Definition not32 (x : Z) : Z := Z.lxor x 0xffffffff.
Definition rotr (n x : Z) : Z :=
  Z.lor (Z.shiftr x n) (wrap32 (Z.shiftl x (32 - n))).

Definition Ch (x y z : Z) : Z := Z.lxor (Z.land x y) (Z.land (not32 x) z).
Definition Maj (x y z : Z) : Z :=
  Z.lxor (Z.lxor (Z.land x y) (Z.land x z)) (Z.land y z).
Definition Sigma0 (x : Z) : Z := Z.lxor (Z.lxor (rotr 2 x) (rotr 13 x)) (rotr 22 x).
Definition Sigma1 (x : Z) : Z := Z.lxor (Z.lxor (rotr 6 x) (rotr 11 x)) (rotr 25 x).
Definition sigma0 (x : Z) : Z := Z.lxor (Z.lxor (rotr 7 x) (rotr 18 x)) (Z.shiftr x 3).
Definition sigma1 (x : Z) : Z := Z.lxor (Z.lxor (rotr 17 x) (rotr 19 x)) (Z.shiftr x 10).

(** The round constants and the initial hash value are, by FIPS 180-4
    (4.2.2 and 5.3.3), the first 32 bits of the fractional parts of the
    cube roots of the first 64 primes and of the square roots of the first
    8 primes. *)
Definition is_prime (p : Z) : bool :=
  forallb (fun d => negb (p mod d =? 0)) (map Z.of_nat (seq 2 (Z.to_nat p - 2))).

Definition primes : list Z := filter is_prime (map Z.of_nat (seq 2 310)).

(** The largest [r] below [2 ^ bit] with [r ^ k <= n], built bit by bit. *)
Fixpoint root_bits (k n : Z) (bit : nat) (r : Z) : Z :=
  match bit with
  | O => r
  | S b =>
      let r' := r + 2 ^ Z.of_nat b in
      root_bits k n b (if r' ^ k <=? n then r' else r)
  end.

Definition frac_root (k p : Z) : Z :=
  wrap32 (root_bits k (p * 2 ^ (32 * k)) 36 0).

Definition K : list Z := Eval vm_compute in map (frac_root 3) primes.

Definition H0 : list Z := Eval vm_compute in map (frac_root 2) (firstn 8 primes).

(** Big-endian encoding of [x] on [n] bytes. *)
Fixpoint be_bytes (n : nat) (x : Z) : list Z :=
  match n with
  | O => []
  | S n' => Z.land (Z.shiftr x (8 * Z.of_nat n')) 0xff :: be_bytes n' x
  end.

(** Message padding: 0x80, zeros up to 56 mod 64, then the bit length on 8 bytes. *)
Definition pad (msg : list Z) : list Z :=
  let len := Z.of_nat (List.length msg) in
  let zeros := Z.to_nat ((55 - len) mod 64) in
  msg ++ 0x80 :: repeat 0 zeros ++ be_bytes 8 (8 * len).

Fixpoint words (fuel : nat) (bs : list Z) : list Z :=
  match fuel, bs with
  | S f, b0 :: b1 :: b2 :: b3 :: rest =>
      (Z.shiftl b0 24 + Z.shiftl b1 16 + Z.shiftl b2 8 + b3) :: words f rest
  | _, _ => []
  end.

Fixpoint blocks (fuel : nat) (ws : list Z) : list (list Z) :=
  match fuel, ws with
  | S f, _ :: _ => firstn 16 ws :: blocks f (skipn 16 ws)
  | _, _ => []
  end.

(** Message schedule: sixteen block words extended to sixty-four. *)
Fixpoint extend (n : nat) (w : list Z) : list Z :=
  match n with
  | O => w
  | S n' =>
      let t := List.length w in
      let at_ (i : nat) := nth (t - i) w 0 in
      extend n' (w ++ [add32 (add32 (sigma1 (at_ 2%nat)) (at_ 7%nat))
                              (add32 (sigma0 (at_ 15%nat)) (at_ 16%nat))])
  end.

Record regs := Regs { ra : Z; rb : Z; rc : Z; rd : Z; re : Z; rf : Z; rg : Z; rh : Z }.

Definition round (r : regs) (kw : Z * Z) : regs :=
  let '(k, w) := kw in
  let t1 := add32 (add32 (add32 (rh r) (Sigma1 (re r))) (add32 (Ch (re r) (rf r) (rg r)) k)) w in
  let t2 := add32 (Sigma0 (ra r)) (Maj (ra r) (rb r) (rc r)) in
  Regs (add32 t1 t2) (ra r) (rb r) (rc r) (add32 (rd r) t1) (re r) (rf r) (rg r).

Definition regs_of (h : list Z) : regs :=
  Regs (nth 0 h 0) (nth 1 h 0) (nth 2 h 0) (nth 3 h 0)
       (nth 4 h 0) (nth 5 h 0) (nth 6 h 0) (nth 7 h 0).

Definition compress (h : list Z) (block : list Z) : list Z :=
  let r0 := regs_of h in
  let r := fold_left round (combine K (extend 48 block)) r0 in
  [ add32 (ra r0) (ra r); add32 (rb r0) (rb r); add32 (rc r0) (rc r); add32 (rd r0) (rd r);
    add32 (re r0) (re r); add32 (rf r0) (rf r); add32 (rg r0) (rg r); add32 (rh r0) (rh r) ].

Definition digest (msg : list Z) : list Z :=
  let p := pad msg in
  let ws := words (List.length p) p in
  flat_map (be_bytes 4) (fold_left compress (blocks (List.length ws) ws) H0).

Definition hex_digit (d : Z) : ascii :=
  if d <? 10 then ascii_of_N (Z.to_N (48 + d)) else ascii_of_N (Z.to_N (87 + d)).

Fixpoint hex (bs : list Z) : string :=
  match bs with
  | [] => EmptyString
  | b :: rest => String (hex_digit (Z.shiftr b 4)) (String (hex_digit (Z.land b 0xf)) (hex rest))
  end.

(** A [string] is read as the UTF-8 bytes of the Python [str]
    ([str.encode()]); SQLite compares TEXT on the same bytes. *)
Definition encode (s : string) : list Z :=
  map (fun c => Z.of_N (N_of_ascii c)) (list_ascii_of_string s).

Definition hexdigest (s : string) : string := hex (digest (encode s)).

End SHA256.


(* ================================================================== *)
(** ** SQLite: the tables of data.db and the statements run on them *)
(* ================================================================== *)

Module Sqlite.
Import PrimFloat.

(** Lines 16-25.  A table is the list of its rows in rowid order, which is
    the order of insertion (no statement of the script deletes a row) and
    the order in which a SELECT without ORDER BY scans it.  A row keeps the
    values the INSERT was given: TEXT a byte string, REAL an IEEE
    binary64. *)

Record users_row := mk_user
  { users_username : string; users_password : string }.

Record expenses_row := mk_expense
  { expenses_username : string; expenses_Date : string; expenses_Category : string;
    expenses_Description : string; expenses_Amount : float }.

Record budgets_row := mk_budget
  { budgets_username : string; budgets_Category : string; budgets_Budget : float }.

(** The state of data.db once lines 77-79 have run: the three tables exist. *)
Record db := mk_db
  { users : list users_row; expenses : list expenses_row; budgets : list budgets_row }.

Definition empty_db : db := mk_db [] [] [].

(** What a SELECT gives back for a REAL cell that was given [v].  SQLite
    keeps NaN as NULL, which Python reads as None and a float column of a
    frame holds as NaN; it keeps -0.0 as the integer 0, read back as 0.0;
    every other value comes back as it was given. *)
Definition read_real (v : float) : float :=
  if is_nan v then nan
  else if (v =? 0)%float then zero
  else v.

(** What a CREATE TABLE statement declares beyond its columns: the
    PRIMARY KEY / UNIQUE constraints, each given as the test "these two
    rows agree on the constrained columns". *)
Definition constraints (row : Type) := list (row -> row -> bool).

(** Lines 24-25: budgets(username TEXT, Category TEXT, Budget REAL) declares
    no PRIMARY KEY and no UNIQUE column. *)
Definition budgets_constraints : constraints budgets_row := [].

(** INSERT INTO t VALUES (...): the new row takes the next rowid. *)
Definition insert_into {row : Type} (r : row) (t : list row) : list row := t ++ [r].

(** REPLACE INTO t VALUES (...), that is INSERT OR REPLACE: the rows that
    conflict with the new one on a uniqueness constraint are deleted, then
    the new row is inserted. *)
Definition conflicts {row : Type} (cs : constraints row) (r old : row) : bool :=
  existsb (fun same_key => same_key r old) cs.

Definition replace_into {row : Type} (cs : constraints row) (r : row) (t : list row) : list row :=
  insert_into r (filter (fun old => negb (conflicts cs r old)) t).

End Sqlite.

(* ================================================================== *)
(** ** pandas: the frame operations visualize_expenses calls *)
(* ================================================================== *)

Module Pandas.
Import PrimFloat.

(** fillna(0) on a float column. *)
Definition fillna0 (v : float) : float := if is_nan v then zero else v.

(** The sum of a group, as groupby(...).sum() and resample(...).sum()
    compute it (pandas 2.1 and later): NaN values are skipped, the others
    are added in row order with Kahan's compensation, and a compensation
    that has become NaN (an infinite value came in) is reset to 0. *)
Definition kahan_add (st : float * float) (val : float) : float * float :=
  let '(sumx, compensation) := st in
  if is_nan val then st
  else
    let y := (val - compensation)%float in
    let t := (sumx + y)%float in
    let c := (t - sumx - y)%float in
    (t, if is_nan c then zero else c).

Definition group_sum (vs : list float) : float :=
  fst (fold_left kahan_add vs (zero, zero)).

(** Series.sum(): NaN values are replaced by 0 and the values are added
    by numpy's pairwise summation: fewer than eight values one after the
    other; up to 128 values on eight running sums, combined two by two,
    then the values left over; more than 128 values in two halves, the
    first a multiple of eight long.  (numpy may start from -0.0 rather
    than 0.0, which can only change the sign of a zero result.) *)
Definition add_all (res : float) (vs : list float) : float :=
  fold_left (fun r v => (r + v)%float) vs res.

Fixpoint add_lanes (lanes vs : list float) : list float :=
  match lanes, vs with
  | r :: lanes', v :: vs' => (r + v)%float :: add_lanes lanes' vs'
  | _, _ => lanes
  end.

Fixpoint add_blocks (blocks : nat) (lanes vs : list float) : list float * list float :=
  match blocks with
  | O => (lanes, vs)
  | S b => add_blocks b (add_lanes lanes (firstn 8 vs)) (skipn 8 vs)
  end.

Definition unrolled_sum (vs : list float) : float :=
  let n := List.length vs in
  let '(lanes, rest) := add_blocks (n / 8 - 1) (firstn 8 vs) (skipn 8 vs) in
  let r (i : nat) := nth i lanes zero in
  add_all (((r 0%nat + r 1%nat) + (r 2%nat + r 3%nat))
           + ((r 4%nat + r 5%nat) + (r 6%nat + r 7%nat)))%float
          rest.

Fixpoint pairwise_sum (fuel : nat) (vs : list float) : float :=
  let n := List.length vs in
  if (n <? 8)%nat then add_all zero vs
  else if (n <=? 128)%nat then unrolled_sum vs
  else
    match fuel with
    | O => zero
    | S f =>
        let n2 := (n / 2 - (n / 2) mod 8)%nat in
        (pairwise_sum f (firstn n2 vs) + pairwise_sum f (skipn n2 vs))%float
    end.

Definition series_sum (vs : list float) : float :=
  pairwise_sum (List.length vs) (map fillna0 vs).

(** groupby(key)[col].sum(): one entry per distinct key, keys sorted
    (sort=True), every row's value added to the running sum of its key. *)
Fixpoint accumulate (k : string) (v : float) (acc : list (string * (float * float)))
  : list (string * (float * float)) :=
  match acc with
  | [] => [(k, kahan_add (zero, zero) v)]
  | (k', s) :: rest =>
      match String.compare k k' with
      | Eq => (k', kahan_add s v) :: rest
      | Lt => (k, kahan_add (zero, zero) v) :: acc
      | Gt => (k', s) :: accumulate k v rest
      end
  end.

Definition running_sums (rows : list (string * float)) : list (string * (float * float)) :=
  fold_left (fun acc kv => accumulate (fst kv) (snd kv) acc) rows [].

Definition groupby_sum (rows : list (string * float)) : list (string * float) :=
  map (fun ks => (fst ks, fst (snd ks))) (running_sums rows).

(** Calendar dates, and the timestamps pd.to_datetime returns: a
    calendar date and a time of day, in nanoseconds. *)
Record date := mk_date { year : Z; month : Z; day : Z }.

Record timestamp := mk_stamp { stamp_date : date; stamp_time : Z }.

Local Open Scope Z_scope.

Definition is_leap (y : Z) : bool :=
  ((y mod 4 =? 0) && negb (y mod 100 =? 0)) || (y mod 400 =? 0).

Definition days_in_month (y m : Z) : Z :=
  if m =? 2 then (if is_leap y then 29 else 28)
  else if (m =? 4) || (m =? 6) || (m =? 9) || (m =? 11) then 30
  else 31.

(** The strings line 115 writes, '%Y-%m-%d' with a four-digit year, and
    the date each one denotes.  Timestamps are 64-bit nanosecond counts;
    the years 1678..2261 lie wholly inside their range. *)
Definition digit (c : ascii) : option Z :=
  let n := Z.of_N (N_of_ascii c) in
  if (48 <=? n) && (n <=? 57) then Some (n - 48) else None.

Fixpoint number (acc : Z) (cs : list ascii) : option Z :=
  match cs with
  | [] => Some acc
  | c :: rest => match digit c with
                 | Some n => number (10 * acc + n) rest
                 | None => None
                 end
  end.

Definition is_dash (c : ascii) : bool := Ascii.eqb c "-"%char.

Definition valid_date (dt : date) : bool :=
  (1678 <=? year dt) && (year dt <=? 2261) &&
  (1 <=? month dt) && (month dt <=? 12) &&
  (1 <=? day dt) && (day dt <=? days_in_month (year dt) (month dt)).

Definition parse_date (s : string) : option date :=
  match list_ascii_of_string s with
  | [y1; y2; y3; y4; s1; m1; m2; s2; d1; d2] =>
      if is_dash s1 && is_dash s2 then
        match number 0 [y1; y2; y3; y4], number 0 [m1; m2], number 0 [d1; d2] with
        | Some y, Some m, Some d =>
            let dt := mk_date y m d in
            if valid_date dt then Some dt else None
        | _, _, _ => None
        end
      else None
  | _ => None
  end.

(** pd.to_datetime on a column of such strings: midnight of each date. *)
Fixpoint to_datetime_iso (col : list string) : option (list timestamp) :=
  match col with
  | [] => Some []
  | s :: rest =>
      match parse_date s, to_datetime_iso rest with
      | Some dt, Some stamps => Some (mk_stamp dt 0 :: stamps)
      | _, _ => None
      end
  end.

(** The calendar month of a date, counted from year 0, and the last day
    of a month so counted. *)
Definition month_index (dt : date) : Z := 12 * year dt + (month dt - 1).

Definition month_end (mi : Z) : date :=
  let y := mi / 12 in
  let m := mi mod 12 + 1 in
  mk_date y m (days_in_month y m).

(** Order of dates, and of timestamps: by month, then day, then time of
    day. *)
Definition date_ltb (a b : date) : bool :=
  (year a <? year b) ||
  ((year a =? year b) &&
   ((month a <? month b) || ((month a =? month b) && (day a <? day b)))).

Definition stamp_ltb (a b : timestamp) : bool :=
  (month_index (stamp_date a) <? month_index (stamp_date b)) ||
  ((month_index (stamp_date a) =? month_index (stamp_date b)) &&
   ((day (stamp_date a) <? day (stamp_date b)) ||
    ((day (stamp_date a) =? day (stamp_date b)) && (stamp_time a <? stamp_time b)))).

(** resample('M', on=...): rows are put in timestamp order by a stable
    sort, binned by calendar month, one bin for every month from that of
    the earliest row to that of the latest, each labelled by its month end
    and holding the group sum of its rows. *)
Fixpoint insert_by_date (r : timestamp * float) (sorted : list (timestamp * float))
  : list (timestamp * float) :=
  match sorted with
  | [] => [r]
  | r' :: rest =>
      if stamp_ltb (fst r) (fst r') then r :: sorted
      else r' :: insert_by_date r rest
  end.

Definition sort_by_date (rows : list (timestamp * float)) : list (timestamp * float) :=
  fold_left (fun acc r => insert_by_date r acc) rows [].

Definition in_month (mi : Z) (r : timestamp * float) : bool :=
  month_index (stamp_date (fst r)) =? mi.

Fixpoint months (lo : Z) (n : nat) : list Z :=
  match n with
  | O => []
  | S n' => lo :: months (lo + 1) n'
  end.

Definition resample_M_sum (rows : list (timestamp * float)) : list (date * float) :=
  let sorted := sort_by_date rows in
  match sorted with
  | [] => []
  | first :: _ =>
      let lo := month_index (stamp_date (fst first)) in
      let hi := month_index (stamp_date (fst (last sorted first))) in
      map (fun mi => (month_end mi, group_sum (map snd (filter (in_month mi) sorted))))
          (months lo (Z.to_nat (hi - lo + 1)))
  end.

(** left.merge(right, on=key, how='right'): the right frame's rows in
    their order, each paired with every left row of the same key, or with a
    missing value (NaN) when the left frame has none. *)
Definition merge_right (left right : list (string * float))
  : list (string * float * float) :=
  flat_map
    (fun kb =>
       match filter (fun ka => String.eqb (fst ka) (fst kb)) left with
       | [] => [(fst kb, nan, snd kb)]
       | matches => map (fun ka => (fst kb, snd ka, snd kb)) matches
       end)
    right.

(** *** Reading a dated frame *)

(** Timestamp order on rows. *)
Definition row_le (a b : timestamp * float) : Prop := stamp_ltb (fst b) (fst a) = false.

(** *** Reading a keyed column *)

(** The value a Series holds for a key. *)
Definition lookup {A : Type} (c : string) (totals : list (string * A)) : option A :=
  option_map snd (find (fun kv => String.eqb (fst kv) c) totals).

Definition has_key {A : Type} (c : string) (kv : string * A) : bool := String.eqb (fst kv) c.

(** Keys in strictly increasing order. *)
Definition key_lt {A : Type} (a b : string * A) : Prop :=
  String.compare (fst a) (fst b) = Lt.

Definition or_start (o : option (float * float)) : float * float :=
  match o with
  | Some s => s
  | None => (zero, zero)
  end.

End Pandas.

(* ================================================================== *)
(** ** Dsbda.py *)
(* ================================================================== *)

Module App.
Import Sqlite Pandas PrimFloat.

(** *** Authentication (lines 28-34, 57-61) *)

Definition add_user (username password : string) (d : db) : db :=
  mk_db (insert_into (mk_user username password) (users d)) (expenses d) (budgets d).

(** SELECT * FROM users WHERE username = ? AND password = ?, then
    fetchone(): the first matching row, or None. *)
Definition login_user (username password : string) (d : db) : option users_row :=
  find (fun r => String.eqb (users_username r) username
                 && String.eqb (users_password r) password)
       (users d).

Definition hash_password (password : string) : string := SHA256.hexdigest password.

Definition check_password (hashed user_pass : string) : bool :=
  String.eqb hashed (SHA256.hexdigest user_pass).

(** *** Expenses (lines 37-45) *)

Definition add_expense (username date category desc : string) (amount : float) (d : db) : db :=
  mk_db (users d)
        (insert_into (mk_expense username date category desc amount) (expenses d))
        (budgets d).

(** A row of the frame with columns Date, Category, Description, Amount. *)
Record expense := mk_row
  { Date : string; Category : string; Description : string; Amount : float }.

Definition DataFrame := list expense.

Definition selected (r : expenses_row) : expense :=
  mk_row (expenses_Date r) (expenses_Category r) (expenses_Description r)
         (read_real (expenses_Amount r)).

Definition get_expenses (username : string) (d : db) : DataFrame :=
  map selected (filter (fun r => String.eqb (expenses_username r) username) (expenses d)).

(** *** Budgets (lines 48-54) *)

Definition set_budget (username category : string) (budget : float) (d : db) : db :=
  mk_db (users d) (expenses d)
        (replace_into budgets_constraints (mk_budget username category budget) (budgets d)).

Definition get_budgets (d : db) : list (string * float) :=
  map (fun r => (budgets_Category r, read_real (budgets_Budget r))) (budgets d).

(** *** The sign-up and login buttons (lines 82-102) *)

Record session_state := mk_session { logged_in : bool; username : string }.

(** Lines 86-88. *)
Definition register (new_user new_pass : string) (d : db) : db :=
  add_user new_user (hash_password new_pass) d.

(** [if result:] on what fetchone() returned: None is false, a row (a
    tuple of two columns) is true. *)
Definition truthy (result : option users_row) : bool :=
  match result with
  | Some _ => true
  | None => false
  end.

(** Lines 96-98: the test the Login button branches on. *)
Definition authenticate (user passwd : string) (d : db) : bool :=
  let hashed := hash_password passwd in
  truthy (login_user user hashed d).

(** Lines 95-102: the new session state and the error shown, if any. *)
Definition login_click (user passwd : string) (d : db) (s : session_state)
  : session_state * option string :=
  if authenticate user passwd d
  then (mk_session true user, None)
  else (s, Some "Invalid Credentials"%string).

(** *** visualize_expenses (lines 134-187) *)

Record merged_row := mk_merged
  { merged_Category : string; merged_Amount : float;
    merged_Budget : float; merged_Percentage : float }.

(** What the function puts on the page: messages, and for each chart the
    data handed to the plotting call (the Series given to plot.pie and to
    plot, the frame given to sns.barplot).  Titles, labels and figure sizes
    are left out. *)
Inductive widget :=
| st_info (msg : string)
| st_warning (msg : string)
| pie_chart (category_data : list (string * float))
| line_chart (monthly : list (date * float))
| bar_chart (merged : list merged_row).

(** The exceptions that end the call: the one pd.to_datetime (or the
    assignment of its result to the Date column) raises, and the one a
    plotting block raises, with the chart it was drawing. *)
Inductive exn :=
| ValueError
| PlotError (chart : widget).

(** What the script takes from its libraries without fixing it: which
    columns of strings pd.to_datetime turns into timestamps (None: it
    raises), and for which data a plotting block (plt.subplots, the plot
    call, st.pyplot) runs to its end rather than raising. *)
Record library := mk_library
  { lib_to_datetime : list string -> option (list timestamp);
    lib_draws : widget -> bool }.

(** A plotting block: the chart is on the page, or the block raised. *)
Definition plot (lib : library) (chart : widget) : list widget * option exn :=
  if lib_draws lib chart then ([chart], None) else ([], Some (PlotError chart)).

(** df.groupby('Category')['Amount'].sum() *)
Definition category_totals (df : DataFrame) : list (string * float) :=
  groupby_sum (map (fun r => (Category r, Amount r)) df).

Definition is_empty {A : Type} (l : list A) : bool :=
  match l with
  | [] => true
  | _ :: _ => false
  end.

(** Lines 144-152. *)
Definition tab1 (lib : library) (df : DataFrame) : list widget * option exn :=
  let category_data := category_totals df in
  if is_empty category_data || (series_sum (map snd category_data) =? 0)%float
  then ([st_warning "No category data available for pie chart."], None)
  else plot lib (pie_chart category_data).

(** Line 157. *)
Definition monthly_totals (stamps : list timestamp) (df : DataFrame) : list (date * float) :=
  resample_M_sum (combine stamps (map Amount df)).

(** Lines 155-166.  The frame's Date column is replaced by the
    timestamps, which must be as many as the rows; no later line reads
    the column. *)
Definition tab2 (lib : library) (df : DataFrame) : list widget * option exn :=
  match lib_to_datetime lib (map Date df) with
  | None => ([], Some ValueError)
  | Some stamps =>
      if (List.length stamps =? List.length df)%nat
      then
        let monthly := monthly_totals stamps df in
        if is_empty monthly
        then ([st_warning "Not enough data to show monthly trend."], None)
        else plot lib (line_chart monthly)
      else ([], Some ValueError)
  end.

Definition with_percentage (r : string * float * float) : merged_row :=
  let '(category, amount, budget) := r in
  mk_merged category amount budget (amount / budget * 100)%float.

(** Lines 174-176. *)
Definition merge_budgets (df : DataFrame) (budget_df : list (string * float))
  : list (string * float * float) :=
  map (fun r => let '(category, amount, budget) := r in
                (category, fillna0 amount, fillna0 budget))
      (merge_right (category_totals df) budget_df).

(** Lines 169-187. *)
Definition tab3 (lib : library) (df : DataFrame) (d : db) : list widget * option exn :=
  let budget_df := get_budgets d in
  if is_empty budget_df
  then ([st_warning "No budgets set."], None)
  else
    let merged := merge_budgets df budget_df in
    if is_empty merged
    then ([st_warning "No budget comparison data."], None)
    else plot lib (bar_chart (map with_percentage merged)).

(** One tab after another, until one raises. *)
Definition and_then (first : list widget * option exn)
           (next : list widget * option exn) : list widget * option exn :=
  match snd first with
  | Some e => first
  | None => (fst first ++ fst next, snd next)
  end.

(** The widgets put on the page, in order, and the exception that ended
    the call, if one did. *)
Definition visualize_expenses (lib : library) (df : DataFrame) (d : db)
  : list widget * option exn :=
  if is_empty df
  then ([st_info "No data available for visualization."], None)
  else and_then (tab1 lib df) (and_then (tab2 lib df) (tab3 lib df d)).

(** Lines 105, 129, 190. *)
Definition dashboard (lib : library) (s : session_state) (d : db)
  : list widget * option exn :=
  if logged_in s
  then visualize_expenses lib (get_expenses (username s) d) d
  else ([], None).

(** *** Reading the page *)

(** The charts that were asked for: those on the page, and the one whose
    plotting block raised. *)
Definition requested (out : list widget * option exn) : list widget :=
  fst out ++ match snd out with
             | Some (PlotError chart) => [chart]
             | _ => []
             end.

Definition the_pie (page : list widget) : option (list (string * float)) :=
  match find (fun w => match w with pie_chart _ => true | _ => false end) page with
  | Some (pie_chart category_data) => Some category_data
  | _ => None
  end.

Definition the_trend (page : list widget) : option (list (date * float)) :=
  match find (fun w => match w with line_chart _ => true | _ => false end) page with
  | Some (line_chart monthly) => Some monthly
  | _ => None
  end.

Definition the_bars (page : list widget) : option (list merged_row) :=
  match find (fun w => match w with bar_chart _ => true | _ => false end) page with
  | Some (bar_chart merged) => Some merged
  | _ => None
  end.

Definition is_no_data (w : widget) : bool :=
  match w with
  | st_info msg => String.eqb msg "No data available for visualization."
  | st_warning msg => String.eqb msg "No category data available for pie chart."
  | _ => false
  end.

Definition signals_no_data (page : list widget) : bool := existsb is_no_data page.

(** The row of the merged frame that one budget row gives once the
    category totals have one row per category: the total of its category,
    or the missing value, then fillna(0) and the Percentage column. *)
Definition joined_row (df : DataFrame) (cb : string * float) : merged_row :=
  with_percentage
    (fst cb,
     fillna0 (match lookup (fst cb) (category_totals df) with
              | Some total => total
              | None => nan
              end),
     fillna0 (snd cb)).

(** A sequence of add_expense calls, one per row. *)
Definition record (r : expenses_row) (d : db) : db :=
  add_expense (expenses_username r) (expenses_Date r) (expenses_Category r)
              (expenses_Description r) (expenses_Amount r) d.

Definition record_all (rs : list expenses_row) (d : db) : db :=
  fold_left (fun d' r => record r d') rs d.

Definition recorded_for (u : string) (rs : list expenses_row) : DataFrame :=
  map selected (filter (fun r => String.eqb (expenses_username r) u) rs).

(** The WHERE clause of login_user. *)
Definition credentials_match (u h : string) (r : users_row) : bool :=
  String.eqb (users_username r) u && String.eqb (users_password r) h.

(** The rows of the budgets table for one category. *)
Definition budget_rows_of (c : string) (d : db) : list budgets_row :=
  filter (fun r => String.eqb (budgets_Category r) c) (budgets d).

Definition amounts_of (c : string) (df : DataFrame) : list float :=
  map Amount (filter (fun r => String.eqb (Category r) c) df).

(** *** Libraries *)

(** One library, for running the script on examples: it reads the dates
    line 115 writes, and its plotting blocks all run to their end. *)
Definition iso_library : library :=
  mk_library to_datetime_iso (fun _ => true).

(** Every plotting block runs to its end. *)
Definition draws_all (lib : library) : Prop := forall chart, lib_draws lib chart = true.

(** pd.to_datetime turns a column of the dates line 115 writes into one
    timestamp per string. *)
Definition reads_iso_dates (lib : library) : Prop :=
  forall col,
    Forall (fun s => exists dt, parse_date s = Some dt) col ->
    exists stamps,
      lib_to_datetime lib col = Some stamps /\ List.length stamps = List.length col.

End App.

(* ================================================================== *)
(** ** The script, one run per click (lines 67-124, 129, 190) *)
(* ================================================================== *)

Module Script.
Import Sqlite Pandas App PrimFloat.
Local Open Scope Z_scope.

(** The options of both category select boxes (lines 111 and 120). *)
Definition categories : list string :=
  ["Food"; "Transport"; "Shopping"; "Health"; "Other"]%string.

(** date.strftime('%Y-%m-%d') (line 115), for the four-digit years. *)
Definition digit_char (k : Z) : ascii := ascii_of_N (Z.to_N (48 + k)).

Definition two_digits (n : Z) : list ascii :=
  [digit_char (n / 10 mod 10); digit_char (n mod 10)].

Definition four_digits (n : Z) : list ascii :=
  [digit_char (n / 1000 mod 10); digit_char (n / 100 mod 10);
   digit_char (n / 10 mod 10); digit_char (n mod 10)].

Definition strftime (dt : date) : string :=
  string_of_list_ascii
    (four_digits (year dt) ++ "-"%char :: two_digits (month dt)
       ++ "-"%char :: two_digits (day dt)).

(** A run of the script is started by one click, with the values the
    widgets hold at that moment; the Add Expense and Set Budget forms are
    on the page only while a user is logged in. *)
Inductive click :=
| Signup (new_user new_pass : string)
| Login (user passwd : string)
| AddExpense (d : date) (category desc : string) (amount : float)
| SetBudget (cat : string) (budget_amt : float).

(** The store and the session state of one browser session. *)
Record state := mk_state { store : db; session : session_state }.

(** A fresh data.db after lines 77-79, and lines 71-74. *)
Definition initial : state := mk_state empty_db (mk_session false "").

Definition step (c : click) (st : state) : state :=
  match c with
  | Signup new_user new_pass =>
      mk_state (register new_user new_pass (store st)) (session st)
  | Login user passwd =>
      mk_state (store st) (fst (login_click user passwd (store st) (session st)))
  | AddExpense d category desc amount =>
      if logged_in (session st)
      then mk_state (add_expense (username (session st)) (strftime d) category desc amount
                       (store st))
                    (session st)
      else st
  | SetBudget cat budget_amt =>
      if logged_in (session st)
      then mk_state (set_budget (username (session st)) cat budget_amt (store st))
                    (session st)
      else st
  end.

Definition run (cs : list click) (st : state) : state :=
  fold_left (fun st' c => step c st') cs st.

(** What the run shows below the forms. *)
Definition page_of (lib : library) (st : state) : list widget * option exn :=
  dashboard lib (session st) (store st).

(** What the widgets let through: st.date_input a calendar date (within
    ten years of today), the select boxes one of their options,
    st.number_input(min_value=0.0) a number that is at least 0. *)
Definition wf_click (c : click) : Prop :=
  match c with
  | Signup _ _ | Login _ _ => True
  | AddExpense d category _ amount =>
      valid_date d = true /\ In category categories /\ (0 <=? amount)%float = true
  | SetBudget cat budget_amt =>
      In cat categories /\ (0 <=? budget_amt)%float = true
  end.

(** Some row of the users table carries this username. *)
Definition registered (u : string) (d : db) : Prop :=
  exists r, In r (users d) /\ users_username r = u.

Definition expense_ok (d : db) (r : expenses_row) : Prop :=
  registered (expenses_username r) d /\
  (exists dt, parse_date (expenses_Date r) = Some dt) /\
  In (expenses_Category r) categories /\
  (0 <=? expenses_Amount r)%float = true.

Definition budget_ok (d : db) (r : budgets_row) : Prop :=
  registered (budgets_username r) d /\
  In (budgets_Category r) categories /\
  (0 <=? budgets_Budget r)%float = true.

Definition consistent (st : state) : Prop :=
  (logged_in (session st) = true -> registered (username (session st)) (store st)) /\
  Forall (expense_ok (store st)) (expenses (store st)) /\
  Forall (budget_ok (store st)) (budgets (store st)).

Definition is_byte (b : Z) : Prop := 0 <= b < 256.

(** The sixteen characters of a hexadecimal digest. *)
Definition is_hex_char (c : ascii) : bool :=
  existsb (Ascii.eqb c) (list_ascii_of_string "0123456789abcdef").

End Script.

(* ================================================================== *)
(** * Properties *)
(* ================================================================== *)

Import Sqlite Pandas App.

(** ** The digest agrees with hashlib on the standard test vectors *)

Example sha256_constants :
  List.length SHA256.K = 64%nat /\
  nth 0 SHA256.K 0%Z = 0x428a2f98%Z /\ nth 63 SHA256.K 0%Z = 0xc67178f2%Z /\
  nth 0 SHA256.H0 0%Z = 0x6a09e667%Z /\ nth 7 SHA256.H0 0%Z = 0x5be0cd19%Z.
Proof. vm_compute. repeat split. Qed.

Example sha256_empty :
  SHA256.hexdigest ""
  = "e3b0c44298fc1c149afbf4c8996fb92427ae41e4649b934ca495991b7852b855"%string.
Proof. vm_compute. reflexivity. Qed.

Example sha256_abc :
  SHA256.hexdigest "abc"
  = "ba7816bf8f01cfea414140de5dae2223b00361a396177a9cb410ff61f20015ad"%string.
Proof. vm_compute. reflexivity. Qed.

Example sha256_two_blocks :
  SHA256.hexdigest "aaaaaaaaaaaaaaaaaaaaaaaaaaaaaaaaaaaaaaaaaaaaaaaaaaaaaaaa"
  = "b35439a4ac6f0948b6d6f9e3c6af0f5f590ce20f1bde7090ef7970686ec6738a"%string.
Proof. vm_compute. reflexivity. Qed.

(** ** Authentication *)

Section Authentication.

Lemma credentials_match_spec (u h : string) (r : users_row) :
  credentials_match u h r = true <-> users_username r = u /\ users_password r = h.
Proof.
  unfold credentials_match.
  rewrite andb_true_iff, !String.eqb_eq. tauto.
Qed.

Lemma login_user_find (u h : string) (d : db) :
  login_user u h d = find (credentials_match u h) (users d).
Proof. reflexivity. Qed.

(** The row fetchone() returns is a stored row with the credentials asked for. *)
Lemma login_user_some (u h : string) (d : db) (row : users_row) :
  login_user u h d = Some row ->
  In row (users d) /\ users_username row = u /\ users_password row = h.
Proof.
  rewrite login_user_find. intros Hfind.
  apply find_some in Hfind. destruct Hfind as [Hin Hm].
  apply credentials_match_spec in Hm. tauto.
Qed.

(** No matching row: fetchone() returns None. *)
Lemma login_user_none (u h : string) (d : db) :
  login_user u h d = None <->
  forall r, In r (users d) -> ~ (users_username r = u /\ users_password r = h).
Proof.
  rewrite login_user_find. split.
  - intros Hnone r Hin Hm.
    apply credentials_match_spec in Hm.
    pose proof (find_none _ _ Hnone r Hin) as Hf. congruence.
  - intros Hall.
    destruct (find (credentials_match u h) (users d)) as [row|] eqn:Hfind; [|reflexivity].
    apply find_some in Hfind. destruct Hfind as [Hin Hm].
    apply credentials_match_spec in Hm. exfalso. exact (Hall row Hin Hm).
Qed.

Lemma login_user_is_some (u h : string) (d : db) :
  (exists row, login_user u h d = Some row) <->
  (exists r, In r (users d) /\ users_username r = u /\ users_password r = h).
Proof.
  split.
  - intros [row Hrow]. exists row. now apply login_user_some.
  - intros [r [Hin Hm]].
    destruct (login_user u h d) as [row|] eqn:Hlogin.
    + now exists row.
    + exfalso. apply (proj1 (login_user_none u h d) Hlogin r Hin Hm).
Qed.

Lemma truthy_true (result : option users_row) :
  truthy result = true <-> exists row, result = Some row.
Proof.
  destruct result as [row|]; simpl; split; intros H.
  - now exists row.
  - reflexivity.
  - discriminate.
  - destruct H as [row H]. discriminate.
Qed.

Lemma check_password_spec (h p : string) :
  check_password h p = true <-> h = hash_password p.
Proof. unfold check_password, hash_password. apply String.eqb_eq. Qed.

(** C3.  Whatever the users table held before, logging in with the
    username and password just signed up with succeeds: login_user finds a
    row, that row carries the username and the digest of the password, and
    the Login branch takes its success arm. *)
Theorem login_after_register :
  forall (d : db) (u p : string),
    authenticate u p (register u p d) = true /\
    exists row,
      login_user u (hash_password p) (add_user u (hash_password p) d) = Some row /\
      users_username row = u /\ users_password row = hash_password p.
Proof.
  intros d u p.
  assert (Hex : exists row,
             login_user u (hash_password p) (add_user u (hash_password p) d) = Some row).
  { apply login_user_is_some.
    exists (mk_user u (hash_password p)). simpl. unfold insert_into.
    rewrite in_app_iff. simpl. auto. }
  split.
  - unfold authenticate, register. apply truthy_true. exact Hex.
  - destruct Hex as [row Hrow]. exists row. split; [exact Hrow|].
    apply login_user_some in Hrow. tauto.
Qed.

(** C8.  authenticate is a total boolean function of the table and
    the input: it is true exactly when some stored row holds the username
    and the digest of the password, and false otherwise, in particular when
    no row has that username; the Login branch then either opens the
    session for that user or leaves the session as it was and reports
    "Invalid Credentials". *)
Theorem authenticate_iff_matching_row :
  forall (d : db) (u p : string),
    (authenticate u p d = true <->
       exists r, In r (users d) /\
                 users_username r = u /\ users_password r = hash_password p) /\
    (authenticate u p d = false <->
       forall r, In r (users d) ->
                 ~ (users_username r = u /\ users_password r = hash_password p)) /\
    ((forall r, In r (users d) -> users_username r <> u) -> authenticate u p d = false) /\
    (forall s, login_click u p d s =
               if authenticate u p d
               then (mk_session true u, None)
               else (s, Some "Invalid Credentials"%string)).
Proof.
  intros d u p.
  assert (Hfalse : authenticate u p d = false <->
            forall r, In r (users d) ->
                      ~ (users_username r = u /\ users_password r = hash_password p)).
  { unfold authenticate. rewrite <- login_user_none.
    destruct (login_user u (hash_password p) d); simpl; split; congruence. }
  split; [|split; [exact Hfalse|split]].
  - unfold authenticate. rewrite truthy_true. apply login_user_is_some.
  - intros Hunknown. apply Hfalse. intros r Hin [Hu _]. exact (Hunknown r Hin Hu).
  - intros s. reflexivity.
Qed.

(** C10.  The SQL comparison of login_user and the helper
    check_password decide the same thing: the query run with the digest of
    [p] returns a row exactly when some stored row for [u] has a password
    column that check_password accepts against [p]. *)
Theorem login_user_iff_check_password :
  forall (d : db) (u p : string),
    (exists row, login_user u (hash_password p) d = Some row) <->
    (exists r, In r (users d) /\ users_username r = u /\
               check_password (users_password r) p = true).
Proof.
  intros d u p. rewrite login_user_is_some.
  split; intros [r [Hin [Hu Hp]]]; exists r; repeat split; try assumption.
  - apply check_password_spec. exact Hp.
  - apply check_password_spec. exact Hp.
Qed.

End Authentication.

(** ** The expense ledger *)

Section Ledger.
Import PrimFloat.

Lemma get_expenses_add_expense (u v date category desc : string) (amount : float) (d : db) :
  get_expenses v (add_expense u date category desc amount d)
  = get_expenses v d
    ++ (if String.eqb u v then [mk_row date category desc (read_real amount)] else []).
Proof.
  unfold get_expenses, add_expense, insert_into. simpl.
  rewrite filter_app, map_app. simpl.
  destruct (String.eqb u v); reflexivity.
Qed.

Lemma get_expenses_record_all (u : string) (rs : list expenses_row) :
  forall d, get_expenses u (record_all rs d) = get_expenses u d ++ recorded_for u rs.
Proof.
  unfold record_all, recorded_for.
  induction rs as [|r rs IH]; intros d; simpl.
  - now rewrite app_nil_r.
  - rewrite IH. unfold record. rewrite get_expenses_add_expense.
    rewrite <- app_assoc. f_equal.
    destruct r as [ru rd rc rdesc ra]; simpl.
    destruct (String.eqb ru u); reflexivity.
Qed.

(** A number comes back from a REAL column equal to what was given, and
    the same float unless it was -0.0. *)
Lemma read_real_number (v : float) :
  is_nan v = false ->
  (read_real v =? v)%float = true /\
  ((v =? 0)%float = false -> read_real v = v).
Proof.
  intros Hnan. unfold read_real. rewrite Hnan.
  destruct (v =? 0)%float eqn:Hz.
  - split; [|discriminate].
    rewrite eqb_spec in Hz |- *.
    change (Prim2SF 0) with (S754_zero false) in Hz.
    change (Prim2SF zero) with (S754_zero false).
    unfold SFeqb in *.
    destruct (Prim2SF v) as [s|s| |s m e]; simpl in *; try discriminate.
    + reflexivity.
    + destruct s; discriminate.
    + destruct s; discriminate.
  - split; [|reflexivity].
    unfold is_nan in Hnan. now apply negb_false_iff in Hnan.
Qed.

(** C7.  Starting from any store, a run of add_expense calls (for
    [u] and for other users, in any interleaving) appends to what
    get_expenses(u) returned before exactly one row per call made for [u],
    in the order of the calls, with the date, category and description of
    the call and its amount as the REAL column gives it back: for every
    number the amount recorded (equal under ==, and the same float unless
    -0.0 was recorded, which comes back as 0.0).  On a store with no row
    for [u] (the empty store in particular) the listing is therefore
    exactly those N rows, and with no call at all it is the empty frame. *)
Theorem get_expenses_after_records :
  forall (u : string) (rs : list expenses_row) (d : db),
    get_expenses u (record_all rs d) = get_expenses u d ++ recorded_for u rs /\
    List.length (recorded_for u rs)
      = List.length (filter (fun r => String.eqb (expenses_username r) u) rs) /\
    (forall i r,
        nth_error (filter (fun r => String.eqb (expenses_username r) u) rs) i = Some r ->
        exists row,
          nth_error (recorded_for u rs) i = Some row /\
          Date row = expenses_Date r /\
          Category row = expenses_Category r /\
          Description row = expenses_Description r /\
          Amount row = read_real (expenses_Amount r) /\
          (is_nan (expenses_Amount r) = false ->
           (Amount row =? expenses_Amount r)%float = true /\
           ((expenses_Amount r =? 0)%float = false -> Amount row = expenses_Amount r))) /\
    get_expenses u (record_all rs empty_db) = recorded_for u rs /\
    get_expenses u empty_db = [].
Proof.
  intros u rs d.
  split; [apply get_expenses_record_all|].
  split; [unfold recorded_for; apply length_map|].
  split; [|split; [rewrite get_expenses_record_all|]; reflexivity].
  intros i r Hnth. exists (selected r). unfold recorded_for.
  rewrite nth_error_map, Hnth.
  split; [reflexivity|]. split; [reflexivity|]. split; [reflexivity|].
  split; [reflexivity|]. split; [reflexivity|].
  intros Hnan. exact (read_real_number (expenses_Amount r) Hnan).
Qed.

(** C9.  Recording an expense for [u] leaves the listing of every
    other user [v] as it was. *)
Theorem add_expense_other_user_unchanged :
  forall (u v date category desc : string) (amount : float) (d : db),
    u <> v ->
    get_expenses v (add_expense u date category desc amount d) = get_expenses v d.
Proof.
  intros u v date category desc amount d Hneq.
  rewrite get_expenses_add_expense.
  apply String.eqb_neq in Hneq. rewrite Hneq. apply app_nil_r.
Qed.

Lemma add_expense_other_user_unchanged_witness :
  "alice"%string <> "bob"%string /\
  get_expenses "bob"
    (add_expense "alice" "2024-01-05" "Food" "lunch" 10%float
       (add_expense "bob" "2024-01-02" "Other" "pen" 2%float empty_db))
  = get_expenses "bob" (add_expense "bob" "2024-01-02" "Other" "pen" 2%float empty_db).
Proof.
  split; [discriminate|].
  apply (add_expense_other_user_unchanged "alice" "bob"); discriminate.
Defined.

End Ledger.

(** ** The budget registry *)

Section Budgets.

(** With no uniqueness constraint on the table, no stored row conflicts
    with a new one, and REPLACE INTO is an INSERT. *)
Lemma replace_into_budgets (r : budgets_row) (t : list budgets_row) :
  replace_into budgets_constraints r t = t ++ [r].
Proof.
  unfold replace_into, insert_into, budgets_constraints, conflicts. simpl.
  f_equal. induction t as [|x t IH]; simpl; [reflexivity | now rewrite IH].
Qed.

Lemma set_budget_appends (u c : string) (a : float) (d : db) :
  budgets (set_budget u c a d) = budgets d ++ [mk_budget u c a].
Proof. unfold set_budget. simpl. apply replace_into_budgets. Qed.

(** C1 (the code departs from it).  The budgets table declares no
    key, so REPLACE INTO deletes nothing: on every store, two set_budget
    calls for one category leave the rows that category had, followed by a
    row for each call, the first still holding its amount.  On the empty
    store, set_budget("alice", "Food", 100) then
    set_budget("bob", "Food", 250) leaves two rows for Food, and
    get_budgets returns both. *)
Theorem set_budget_twice_keeps_both_rows :
  (forall (u u' c : string) (a a' : float) (d : db),
      budget_rows_of c (set_budget u' c a' (set_budget u c a d))
      = budget_rows_of c d ++ [mk_budget u c a; mk_budget u' c a']) /\
  budget_rows_of "Food"
    (set_budget "bob" "Food" 250%float (set_budget "alice" "Food" 100%float empty_db))
  = [mk_budget "alice" "Food" 100%float; mk_budget "bob" "Food" 250%float] /\
  get_budgets
    (set_budget "bob" "Food" 250%float (set_budget "alice" "Food" 100%float empty_db))
  = [("Food"%string, 100%float); ("Food"%string, 250%float)].
Proof.
  split; [|split; reflexivity].
  intros u u' c a a' d.
  unfold budget_rows_of. rewrite !set_budget_appends.
  rewrite !filter_app. simpl. rewrite String.eqb_refl.
  rewrite <- app_assoc. reflexivity.
Qed.

End Budgets.

(** ** Grouping and summing *)

Section GroupBy.
Import PrimFloat.

Lemma ascii_compare_lt_trans (a b c : ascii) :
  Ascii.compare a b = Lt -> Ascii.compare b c = Lt -> Ascii.compare a c = Lt.
Proof.
  unfold Ascii.compare. rewrite !N.compare_lt_iff. lia.
Qed.

Lemma string_compare_lt_trans :
  forall s1 s2 s3 : string,
    String.compare s1 s2 = Lt -> String.compare s2 s3 = Lt -> String.compare s1 s3 = Lt.
Proof.
  induction s1 as [|a s1 IH]; intros [|b s2] [|c s3]; simpl; try congruence.
  destruct (Ascii.compare a b) eqn:Hab; try discriminate;
    destruct (Ascii.compare b c) eqn:Hbc; try discriminate; intros H12 H23.
  - apply Ascii.compare_eq_iff in Hab, Hbc. subst.
    assert (Hcc : Ascii.compare c c = Eq) by (unfold Ascii.compare; apply N.compare_refl).
    rewrite Hcc. eapply IH; eassumption.
  - apply Ascii.compare_eq_iff in Hab. subst. now rewrite Hbc.
  - apply Ascii.compare_eq_iff in Hbc. subst. now rewrite Hab.
  - now rewrite (ascii_compare_lt_trans _ _ _ Hab Hbc).
Qed.

Lemma string_compare_refl (s : string) : String.compare s s = Eq.
Proof.
  induction s as [|a s IH]; simpl; [reflexivity|].
  unfold Ascii.compare. now rewrite N.compare_refl.
Qed.

Lemma string_compare_lt_neq (s1 s2 : string) :
  String.compare s1 s2 = Lt -> String.eqb s2 s1 = false.
Proof.
  intros Hlt. apply String.eqb_neq. intros ->.
  rewrite string_compare_refl in Hlt. discriminate.
Qed.

Lemma string_compare_gt_lt (s1 s2 : string) :
  String.compare s1 s2 = Gt -> String.compare s2 s1 = Lt.
Proof. intros H. rewrite String.compare_antisym, H. reflexivity. Qed.

Lemma accumulate_keys_above (k0 k : string) (v : float)
      (acc : list (string * (float * float))) (s0 : float * float) :
  String.compare k0 k = Lt ->
  Forall (key_lt (k0, s0)) acc ->
  Forall (key_lt (k0, s0)) (accumulate k v acc).
Proof.
  intros Hk. induction acc as [|[k' s] rest IH]; simpl; intros Hall.
  - constructor; [exact Hk | constructor].
  - inversion Hall as [|x l Hx Hrest]; subst.
    destruct (String.compare k k') eqn:Hcmp.
    + constructor; assumption.
    + constructor; [exact Hk | assumption].
    + constructor; [assumption | now apply IH].
Qed.

Lemma accumulate_sorted (k : string) (v : float) (acc : list (string * (float * float))) :
  StronglySorted key_lt acc -> StronglySorted key_lt (accumulate k v acc).
Proof.
  induction acc as [|[k' s] rest IH]; simpl; intros Hs.
  - repeat constructor.
  - inversion Hs as [|x l Hrest Hall]; subst.
    destruct (String.compare k k') eqn:Hcmp.
    + constructor; assumption.
    + constructor; [exact Hs|].
      constructor; [exact Hcmp|].
      eapply Forall_impl; [|exact Hall].
      intros [k'' s''] Hlt. unfold key_lt in *; simpl in *.
      eapply string_compare_lt_trans; eassumption.
    + constructor; [now apply IH|].
      apply accumulate_keys_above; [|exact Hall].
      now apply string_compare_gt_lt.
Qed.

Lemma running_sums_sorted (rows : list (string * float)) :
  StronglySorted key_lt (running_sums rows).
Proof.
  unfold running_sums.
  assert (H : forall acc, StronglySorted key_lt acc ->
              StronglySorted key_lt
                (fold_left (fun acc kv => accumulate (fst kv) (snd kv) acc) rows acc)).
  { induction rows as [|[k v] rows IH]; simpl; intros acc Hacc; [exact Hacc|].
    apply IH. now apply accumulate_sorted. }
  apply H. constructor.
Qed.

Lemma map_sorted {A B : Type} (R : A -> A -> Prop) (S : B -> B -> Prop) (f : A -> B)
      (l : list A) :
  (forall x y, R x y -> S (f x) (f y)) ->
  StronglySorted R l -> StronglySorted S (map f l).
Proof.
  intros Hf. induction 1 as [|x l Hs IH Hall]; simpl; constructor; [exact IH|].
  apply Forall_forall. intros y Hy. apply in_map_iff in Hy.
  destruct Hy as [x' [<- Hx']]. apply Hf.
  rewrite Forall_forall in Hall. now apply Hall.
Qed.

Lemma groupby_sum_sorted (rows : list (string * float)) :
  StronglySorted key_lt (groupby_sum rows).
Proof.
  unfold groupby_sum.
  apply (map_sorted key_lt key_lt); [|apply running_sums_sorted].
  intros x y H. exact H.
Qed.

Lemma lookup_cons {A : Type} (c k : string) (s : A) (rest : list (string * A)) :
  lookup c ((k, s) :: rest) = if String.eqb k c then Some s else lookup c rest.
Proof. unfold lookup. simpl. destruct (String.eqb k c); reflexivity. Qed.

Lemma lookup_above {A : Type} (c : string) (s0 : A) (l : list (string * A)) :
  Forall (key_lt (c, s0)) l -> lookup c l = None.
Proof.
  induction l as [|[k s] rest IH]; intros Hall; [reflexivity|].
  inversion Hall as [|x l' Hx Hrest]; subst.
  unfold key_lt in Hx; simpl in Hx.
  rewrite lookup_cons, (string_compare_lt_neq _ _ Hx). now apply IH.
Qed.

Lemma lookup_map {A B : Type} (f : A -> B) (c : string) (l : list (string * A)) :
  lookup c (map (fun ks => (fst ks, f (snd ks))) l) = option_map f (lookup c l).
Proof.
  induction l as [|[k s] rest IH]; [reflexivity|].
  cbn [map fst snd]. rewrite !lookup_cons.
  destruct (String.eqb k c); [reflexivity | exact IH].
Qed.

Lemma lookup_accumulate (c k : string) (v : float) (acc : list (string * (float * float))) :
  StronglySorted key_lt acc ->
  lookup c (accumulate k v acc)
  = if String.eqb k c then Some (kahan_add (or_start (lookup k acc)) v) else lookup c acc.
Proof.
  induction acc as [|[k' s] rest IH]; simpl; intros Hs.
  - rewrite lookup_cons. destruct (String.eqb k c); reflexivity.
  - inversion Hs as [|x l Hrest Hall]; subst.
    destruct (String.compare k k') eqn:Hcmp.
    + apply String.compare_eq_iff in Hcmp. subst k'.
      rewrite !lookup_cons, String.eqb_refl.
      destruct (String.eqb k c); reflexivity.
    + assert (Hnone : lookup k ((k', s) :: rest) = None).
      { apply (lookup_above k s). constructor; [exact Hcmp|].
        eapply Forall_impl; [|exact Hall].
        intros [k'' s''] Hlt. unfold key_lt in *; simpl in *.
        eapply string_compare_lt_trans; eassumption. }
      rewrite Hnone, lookup_cons.
      destruct (String.eqb k c); reflexivity.
    + apply string_compare_gt_lt in Hcmp.
      pose proof (string_compare_lt_neq _ _ Hcmp) as Hneq.
      assert (Hneq' : String.eqb k' k = false).
      { rewrite String.eqb_sym. exact Hneq. }
      rewrite !lookup_cons, Hneq', (IH Hrest).
      destruct (String.eqb k' c) eqn:Hk'c; [|reflexivity].
      apply String.eqb_eq in Hk'c. subst c.
      rewrite Hneq. reflexivity.
Qed.

(** The entry of a key after a pass over the rows: the running sum of
    the values of the rows with that key, in row order. *)
Lemma lookup_fold_accumulate (c : string) (rows : list (string * float)) :
  forall acc,
    StronglySorted key_lt acc ->
    lookup c (fold_left (fun acc kv => accumulate (fst kv) (snd kv) acc) rows acc)
    = match filter (has_key c) rows with
      | [] => lookup c acc
      | vs => Some (fold_left kahan_add (map snd vs) (or_start (lookup c acc)))
      end.
Proof.
  induction rows as [|[k v] rows IH]; intros acc Hacc; simpl; [reflexivity|].
  rewrite (IH _ (accumulate_sorted k v acc Hacc)).
  rewrite lookup_accumulate by exact Hacc.
  unfold has_key at 2. simpl.
  destruct (String.eqb k c) eqn:Hkc.
  - apply String.eqb_eq in Hkc. subst k. simpl.
    destruct (filter (has_key c) rows); reflexivity.
  - reflexivity.
Qed.

Lemma lookup_groupby_sum (c : string) (rows : list (string * float)) :
  lookup c (groupby_sum rows)
  = match filter (has_key c) rows with
    | [] => None
    | vs => Some (group_sum (map snd vs))
    end.
Proof.
  unfold groupby_sum, running_sums.
  rewrite (lookup_map fst), lookup_fold_accumulate by constructor.
  destruct (filter (has_key c) rows); reflexivity.
Qed.

Lemma filter_category (c : string) (df : DataFrame) :
  map snd (filter (has_key c) (map (fun r => (Category r, Amount r)) df)) = amounts_of c df.
Proof.
  unfold amounts_of. induction df as [|r df IH]; simpl; [reflexivity|].
  unfold has_key at 1. simpl. destruct (String.eqb (Category r) c); simpl; now rewrite IH.
Qed.

Lemma lookup_category_totals (c : string) (df : DataFrame) :
  lookup c (category_totals df)
  = match amounts_of c df with
    | [] => None
    | _ :: _ => Some (group_sum (amounts_of c df))
    end.
Proof.
  unfold category_totals. rewrite lookup_groupby_sum, <- filter_category.
  destruct (filter (has_key c) (map (fun r => (Category r, Amount r)) df)); reflexivity.
Qed.

Lemma sorted_keys_NoDup {A : Type} (l : list (string * A)) :
  StronglySorted key_lt l -> NoDup (map fst l).
Proof.
  induction 1 as [|[k s] rest Hs IH Hall]; simpl; constructor; [|exact IH].
  intros Hin. apply in_map_iff in Hin. destruct Hin as [[k' s'] [Hk Hin]].
  simpl in Hk. subst k'.
  rewrite Forall_forall in Hall. specialize (Hall _ Hin).
  unfold key_lt in Hall. simpl in Hall.
  rewrite string_compare_refl in Hall. discriminate.
Qed.

Lemma groupby_sum_nonempty (rows : list (string * float)) :
  rows <> [] -> groupby_sum rows <> [].
Proof.
  destruct rows as [|[k v] rows]; [congruence|]. intros _ Hnil.
  pose proof (lookup_groupby_sum k ((k, v) :: rows)) as Hl.
  rewrite Hnil in Hl. simpl in Hl. unfold has_key in Hl. simpl in Hl.
  rewrite String.eqb_refl in Hl. discriminate.
Qed.

Lemma in_groupby_sum_iff (c : string) (rows : list (string * float)) :
  In c (map fst (groupby_sum rows)) <-> In c (map fst rows).
Proof.
  pose proof (lookup_groupby_sum c rows) as Hl. unfold lookup in Hl.
  split; intros Hin.
  - destruct (filter (has_key c) rows) as [|kv vs] eqn:Hf.
    + exfalso. apply in_map_iff in Hin. destruct Hin as [[k s] [Hk Hin]]. simpl in Hk. subst k.
      destruct (find (fun kv => String.eqb (fst kv) c) (groupby_sum rows)) eqn:Hfind; [discriminate|].
      pose proof (find_none _ _ Hfind _ Hin) as Hno. simpl in Hno.
      rewrite String.eqb_refl in Hno. discriminate.
    + assert (Hkv : In kv (filter (has_key c) rows)) by (rewrite Hf; now left).
      apply filter_In in Hkv. destruct Hkv as [Hkv Hc].
      apply String.eqb_eq in Hc. subst c. now apply in_map.
  - apply in_map_iff in Hin. destruct Hin as [[k v] [Hk Hin]]. simpl in Hk. subst k.
    assert (Hkv : In (c, v) (filter (has_key c) rows)).
    { apply filter_In. split; [exact Hin|]. unfold has_key. simpl. apply String.eqb_refl. }
    destruct (filter (has_key c) rows) as [|kv vs]; [contradiction|].
    destruct (find (fun kv => String.eqb (fst kv) c) (groupby_sum rows)) as [[k s]|] eqn:Hfind;
      [|discriminate].
    apply find_some in Hfind. destruct Hfind as [Hin' Hk]. simpl in Hk.
    apply String.eqb_eq in Hk. subst k.
    apply in_map_iff. exists (c, s). split; [reflexivity | exact Hin'].
Qed.

End GroupBy.

(** ** Category totals and the pie chart *)

Section Reporting.
Import PrimFloat.

Lemma tab2_shape (lib : library) (df : DataFrame) :
  tab2 lib df = ([], Some ValueError) \/
  tab2 lib df = ([st_warning "Not enough data to show monthly trend."], None) \/
  exists monthly,
    tab2 lib df = ([line_chart monthly], None) \/
    tab2 lib df = ([], Some (PlotError (line_chart monthly))).
Proof.
  unfold tab2. destruct (lib_to_datetime lib (map Date df)) as [stamps|]; [|now left].
  destruct (_ =? _)%nat; [|now left].
  destruct (is_empty _); [right; now left|].
  right. right. exists (monthly_totals stamps df).
  unfold plot. destruct (lib_draws lib _); [now left | now right].
Qed.

Lemma tab3_shape (lib : library) (df : DataFrame) (d : db) :
  tab3 lib df d = ([st_warning "No budgets set."], None) \/
  tab3 lib df d = ([st_warning "No budget comparison data."], None) \/
  exists merged,
    tab3 lib df d = ([bar_chart merged], None) \/
    tab3 lib df d = ([], Some (PlotError (bar_chart merged))).
Proof.
  unfold tab3. destruct (is_empty (get_budgets d)); [now left|].
  destruct (is_empty _); [right; now left|].
  right. right. eexists.
  unfold plot. destruct (lib_draws lib _); [now left | now right].
Qed.

Lemma category_totals_nonempty (df : DataFrame) :
  df <> [] -> is_empty (category_totals df) = false.
Proof.
  intros Hdf. unfold category_totals.
  destruct (groupby_sum _) eqn:Hg; [|reflexivity].
  exfalso. revert Hg. apply groupby_sum_nonempty.
  destruct df; [congruence | discriminate].
Qed.

(** The tabs after the first one ask for no pie and show no "no data"
    message. *)
Lemma later_tabs (lib : library) (df : DataFrame) (d : db) :
  signals_no_data (fst (and_then (tab2 lib df) (tab3 lib df d))) = false /\
  the_pie (requested (and_then (tab2 lib df) (tab3 lib df d))) = None.
Proof.
  destruct (tab2_shape lib df) as [-> | [-> | [monthly [-> | ->]]]];
    destruct (tab3_shape lib df d) as [-> | [-> | [merged [-> | ->]]]];
    split; reflexivity.
Qed.

(** The first tab: the "no data" warning, the pie on the page, or the
    pie's plotting block raising. *)
Lemma tab1_shape (lib : library) (df : DataFrame) :
  df <> [] ->
  ((series_sum (map snd (category_totals df)) =? 0)%float = true /\
   tab1 lib df = ([st_warning "No category data available for pie chart."], None)) \/
  ((series_sum (map snd (category_totals df)) =? 0)%float = false /\
   lib_draws lib (pie_chart (category_totals df)) = true /\
   tab1 lib df = ([pie_chart (category_totals df)], None)) \/
  ((series_sum (map snd (category_totals df)) =? 0)%float = false /\
   lib_draws lib (pie_chart (category_totals df)) = false /\
   tab1 lib df = ([], Some (PlotError (pie_chart (category_totals df))))).
Proof.
  intros Hdf. unfold tab1, plot. rewrite (category_totals_nonempty _ Hdf). cbn [orb].
  destruct (series_sum _ =? 0)%float; [now left|].
  destruct (lib_draws lib _); [right; left | right; right]; auto.
Qed.


End Reporting.

(** ** IEEE facts used by the utilization column *)

Section FloatFacts.
Import PrimFloat.

Lemma Prim2SF_100 : Prim2SF 100 = S754_finite false 7036874417766400 (-46).
Proof. vm_compute. reflexivity. Qed.

Lemma SFcompare_refl (x : spec_float) : x <> S754_nan -> SFcompare x x = Some Eq.
Proof.
  destruct x as [s|s| |s m e]; simpl; intros Hx; try congruence.
  - destruct s; reflexivity.
  - rewrite Z.compare_refl, Pos.compare_cont_refl. destruct s; reflexivity.
Qed.

Lemma is_nan_spec (x : float) : is_nan x = true <-> Prim2SF x = S754_nan.
Proof.
  unfold is_nan. rewrite eqb_spec. unfold SFeqb.
  destruct (Prim2SF x) as [s|s| |s m e] eqn:Hx.
  - simpl. split; discriminate.
  - rewrite SFcompare_refl by discriminate. simpl. split; discriminate.
  - simpl. split; reflexivity.
  - rewrite SFcompare_refl by discriminate. simpl. split; discriminate.
Qed.

Lemma is_infinity_spec (x : float) (s : bool) :
  Prim2SF x = S754_infinity s -> is_infinity x = true.
Proof.
  intros Hx. unfold is_infinity. rewrite eqb_spec, abs_spec, Hx. reflexivity.
Qed.

(** A float that compares equal to 0 is one of the two zeros. *)
Lemma eqb_zero_spec : forall b : float,
  (b =? 0)%float = true -> exists s, Prim2SF b = S754_zero s.
Proof.
  intros b. rewrite eqb_spec. change (Prim2SF 0) with (S754_zero false).
  unfold SFeqb. destruct (Prim2SF b) as [s|s| |s m e]; simpl; try discriminate.
  - eauto.
  - destruct s; discriminate.
  - destruct s; discriminate.
Qed.

(** A float above 0 is a positive number or +infinity. *)
Lemma ltb_zero_spec : forall b : float,
  (0 <? b)%float = true ->
  Prim2SF b = S754_infinity false \/ exists m e, Prim2SF b = S754_finite false m e.
Proof.
  intros b. rewrite ltb_spec. change (Prim2SF 0) with (S754_zero false).
  unfold SFltb. destruct (Prim2SF b) as [s|s| |s m e]; simpl; try discriminate.
  - destruct s; [discriminate | auto].
  - destruct s; [discriminate | eauto].
Qed.

Lemma fillna0_not_nan (b : float) : is_nan b = false -> fillna0 b = b.
Proof. unfold fillna0. now intros ->. Qed.

Lemma fillna0_eqb_zero (b : float) : (b =? 0)%float = true -> fillna0 b = b.
Proof.
  intros Hb. apply fillna0_not_nan.
  destruct (is_nan b) eqn:Hnan; [|reflexivity].
  apply is_nan_spec in Hnan. destruct (eqb_zero_spec b Hb) as [s Hs]. congruence.
Qed.

Lemma fillna0_positive (b : float) : (0 <? b)%float = true -> fillna0 b = b.
Proof.
  intros Hb. apply fillna0_not_nan.
  destruct (is_nan b) eqn:Hnan; [|reflexivity].
  apply is_nan_spec in Hnan.
  destruct (ltb_zero_spec b Hb) as [H | [m [e H]]]; congruence.
Qed.

(** Nothing spent against a positive budget is 0%. *)
Lemma zero_percent (b : float) :
  (0 <? b)%float = true -> (0 / b * 100)%float = 0%float.
Proof.
  intros Hb.
  assert (Hdiv : (0 / b)%float = 0%float).
  { apply Prim2SF_inj. rewrite div_spec.
    change (Prim2SF 0) with (S754_zero false).
    destruct (ltb_zero_spec b Hb) as [-> | [m [e ->]]]; reflexivity. }
  rewrite Hdiv. reflexivity.
Qed.

(** Dividing by a zero budget gives NaN or an infinity, and multiplying
    by 100 keeps it so. *)
Lemma percent_of_zero_budget (a b : float) :
  (b =? 0)%float = true ->
  is_nan (a / b * 100)%float || is_infinity (a / b * 100)%float = true.
Proof.
  intros Hb. destruct (eqb_zero_spec b Hb) as [s Hs].
  assert (Hr : Prim2SF (a / b * 100)%float = S754_nan \/
               exists s', Prim2SF (a / b * 100)%float = S754_infinity s').
  { rewrite mul_spec, div_spec, Hs, Prim2SF_100.
    destruct (Prim2SF a) as [sa|sa| |sa ma ea]; simpl; eauto. }
  apply orb_true_iff. destruct Hr as [Hr | [s' Hr]].
  - left. now apply is_nan_spec.
  - right. now apply is_infinity_spec with s'.
Qed.

(** A positive spend against a budget of 0 is +infinity percent. *)
Lemma percent_positive_over_zero (a : float) :
  (0 <? a)%float = true -> (a / 0 * 100)%float = infinity.
Proof.
  intros Ha. apply Prim2SF_inj.
  rewrite mul_spec, div_spec, Prim2SF_100.
  change (Prim2SF 0) with (S754_zero false).
  change (Prim2SF infinity) with (S754_infinity false).
  destruct (ltb_zero_spec a Ha) as [-> | [m [e ->]]]; reflexivity.
Qed.

(** A negative spend against a budget of 0 is -infinity percent, and a
    spend of 0 against a budget of 0 is NaN. *)
Lemma ltb_below_zero_spec : forall a : float,
  (a <? 0)%float = true ->
  Prim2SF a = S754_infinity true \/ exists m e, Prim2SF a = S754_finite true m e.
Proof.
  intros a. rewrite ltb_spec. change (Prim2SF 0) with (S754_zero false).
  unfold SFltb. destruct (Prim2SF a) as [s|s| |s m e]; simpl; try discriminate.
  - destruct s; [auto | discriminate].
  - destruct s; [eauto | discriminate].
Qed.

Lemma percent_negative_over_zero (a : float) :
  (a <? 0)%float = true -> (a / 0 * 100)%float = neg_infinity.
Proof.
  intros Ha. apply Prim2SF_inj.
  rewrite mul_spec, div_spec, Prim2SF_100.
  change (Prim2SF 0) with (S754_zero false).
  change (Prim2SF neg_infinity) with (S754_infinity true).
  destruct (ltb_below_zero_spec a Ha) as [-> | [m [e ->]]]; reflexivity.
Qed.

Lemma percent_zero_over_zero (a : float) :
  (a =? 0)%float = true -> is_nan (a / 0 * 100)%float = true.
Proof.
  intros Ha. apply is_nan_spec.
  rewrite mul_spec, div_spec, Prim2SF_100.
  change (Prim2SF 0) with (S754_zero false).
  destruct (eqb_zero_spec a Ha) as [s ->]. reflexivity.
Qed.

(** What a REAL column gives back is never -0.0: if it compares equal to
    0 it is 0.0; and it is at least 0 whenever the value given was. *)
Lemma read_real_zero (v : float) :
  (read_real v =? 0)%float = true -> read_real v = zero.
Proof.
  unfold read_real. destruct (is_nan v); [discriminate|].
  destruct (v =? 0)%float eqn:Hz; [reflexivity | congruence].
Qed.

Lemma read_real_nonneg (v : float) :
  (0 <=? v)%float = true -> (0 <=? read_real v)%float = true.
Proof.
  intros Hv. unfold read_real.
  destruct (is_nan v) eqn:Hnan.
  - apply is_nan_spec in Hnan. rewrite leb_spec, Hnan in Hv. discriminate.
  - destruct (v =? 0)%float; [reflexivity | exact Hv].
Qed.

Lemma leb_zero_fillna0 (b : float) : (0 <=? b)%float = true -> fillna0 b = b.
Proof.
  intros Hb. apply fillna0_not_nan.
  destruct (is_nan b) eqn:Hnan; [|reflexivity].
  apply is_nan_spec in Hnan. rewrite leb_spec, Hnan in Hb. discriminate.
Qed.

End FloatFacts.

(** ** Budget against actual *)

Section Utilization.
Import PrimFloat.

(** With distinct keys, at most one row of the left frame matches. *)
Lemma filter_sorted_keys (c : string) (l : list (string * float)) :
  StronglySorted key_lt l ->
  filter (fun ka => String.eqb (fst ka) c) l
  = match lookup c l with
    | Some a => [(c, a)]
    | None => []
    end.
Proof.
  induction 1 as [|[k s] rest Hs IH Hall]; [reflexivity|].
  rewrite lookup_cons. simpl.
  destruct (String.eqb k c) eqn:Hkc.
  - apply String.eqb_eq in Hkc. subst k.
    rewrite IH, (lookup_above c s rest Hall). reflexivity.
  - exact IH.
Qed.

Lemma merge_budgets_rows (df : DataFrame) (budget_df : list (string * float)) :
  map with_percentage (merge_budgets df budget_df) = map (joined_row df) budget_df.
Proof.
  unfold merge_budgets, merge_right, category_totals.
  induction budget_df as [|[c b] rest IH]; [reflexivity|].
  cbn [flat_map]. rewrite !map_app, IH. cbn [map fst snd].
  rewrite filter_sorted_keys by apply groupby_sum_sorted.
  unfold joined_row, category_totals. cbn [fst snd].
  destruct (lookup c _); reflexivity.
Qed.

Lemma tab3_bars (lib : library) (df : DataFrame) (d : db) :
  get_budgets d <> [] ->
  tab3 lib df d = plot lib (bar_chart (map (joined_row df) (get_budgets d))).
Proof.
  intros Hb. unfold tab3.
  destruct (get_budgets d) as [|cb rest] eqn:Hbud; [congruence|].
  cbn [is_empty].
  rewrite <- merge_budgets_rows.
  destruct (merge_budgets df (cb :: rest)) eqn:Hm; [|reflexivity].
  exfalso.
  assert (Hlen : List.length (map with_percentage (merge_budgets df (cb :: rest))) = 0%nat)
    by now rewrite Hm.
  rewrite merge_budgets_rows in Hlen. discriminate.
Qed.

Lemma joined_row_amount (df : DataFrame) (cb : string * float) :
  merged_Amount (joined_row df cb)
  = match amounts_of (fst cb) df with
    | [] => zero
    | _ :: _ => fillna0 (group_sum (amounts_of (fst cb) df))
    end.
Proof.
  unfold joined_row. simpl. rewrite lookup_category_totals.
  destruct (amounts_of (fst cb) df); reflexivity.
Qed.

(** The bars that the page or the exception holds are those the Budget
    vs Actual tab asked for. *)
Lemma requested_plot (lib : library) (merged : list merged_row) :
  the_bars (requested (plot lib (bar_chart merged))) = Some merged.
Proof. unfold plot. destruct (lib_draws lib _); reflexivity. Qed.

Lemma tab3_requested_bars (lib : library) (df : DataFrame) (d : db) :
  the_bars (requested (tab3 lib df d))
  = if is_empty (get_budgets d) then None
    else Some (map (joined_row df) (get_budgets d)).
Proof.
  destruct (get_budgets d) as [|cb rest] eqn:Hb.
  - unfold tab3. rewrite Hb. reflexivity.
  - rewrite tab3_bars by (rewrite Hb; discriminate).
    rewrite Hb. apply requested_plot.
Qed.

(** When the first two tabs raise nothing, the call ends as the Budget
    vs Actual tab ends, and the bars asked for are those of that tab. *)
Lemma visualize_expenses_reaches_tab3 (lib : library) (df : DataFrame) (d : db) :
  df <> [] ->
  snd (tab1 lib df) = None ->
  snd (tab2 lib df) = None ->
  snd (visualize_expenses lib df d) = snd (tab3 lib df d) /\
  the_bars (requested (visualize_expenses lib df d)) = the_bars (requested (tab3 lib df d)) /\
  the_bars (fst (visualize_expenses lib df d)) = the_bars (fst (tab3 lib df d)).
Proof.
  intros Hdf H1 H2. unfold visualize_expenses.
  destruct df as [|r df]; [congruence|]. cbn [is_empty].
  destruct (tab1_shape lib (r :: df) Hdf) as [[_ Ht] | [[_ [_ Ht]] | [_ [_ Ht]]]];
    rewrite Ht in *; try discriminate;
    destruct (tab2_shape lib (r :: df)) as [Hs | [Hs | [monthly [Hs | Hs]]]];
    rewrite Hs in *; try discriminate;
    destruct (tab3 lib (r :: df) d) as [page [e|]]; repeat split; reflexivity.
Qed.

(** No bars are asked for unless the Budget vs Actual tab is reached. *)
Lemma visualize_expenses_bars (lib : library) (df : DataFrame) (d : db)
      (bars : list merged_row) :
  the_bars (requested (visualize_expenses lib df d)) = Some bars ->
  the_bars (requested (tab3 lib df d)) = Some bars.
Proof.
  unfold visualize_expenses.
  destruct df as [|r df]; [discriminate|]. cbn [is_empty].
  destruct (tab1_shape lib (r :: df) ltac:(discriminate))
    as [[_ Ht] | [[_ [_ Ht]] | [_ [_ Ht]]]];
    rewrite Ht; try discriminate;
    destruct (tab2_shape lib (r :: df)) as [Hs | [Hs | [monthly [Hs | Hs]]]];
    rewrite Hs; try discriminate;
    destruct (tab3 lib (r :: df) d) as [page [e|]]; intros H; exact H.
Qed.

(** C4 (as amended).  With at least one budget row, the Budget vs
    Actual tab computes the right outer join of the category totals with
    the budget rows and hands it to the bar plot: one row per budget row,
    in the order of the budget rows, carrying that row's category and
    budget, the total spent in the category (0 when no expense has it),
    and Percentage = Amount / Budget * 100; a category without a budget
    row gets no row.  A budgeted category with no spend shows 0% when its
    budget is positive.  visualize_expenses reaches the tab when the
    expense frame is not empty and the two tabs before it raise nothing;
    on the empty frame it returns before the tab. *)
Theorem budget_utilization_right_join :
  forall (lib : library) (df : DataFrame) (d : db),
    get_budgets d <> [] ->
    exists merged,
      tab3 lib df d = plot lib (bar_chart merged) /\
      Forall2
        (fun (row : merged_row) (cb : string * float) =>
           merged_Category row = fst cb /\
           merged_Budget row = fillna0 (snd cb) /\
           merged_Amount row
           = match amounts_of (fst cb) df with
             | [] => zero
             | _ :: _ => fillna0 (group_sum (amounts_of (fst cb) df))
             end /\
           merged_Percentage row = (merged_Amount row / merged_Budget row * 100)%float /\
           (amounts_of (fst cb) df = [] -> (0 <? snd cb)%float = true ->
            merged_Percentage row = zero))
        merged (get_budgets d) /\
      (forall c, ~ In c (map fst (get_budgets d)) -> ~ In c (map merged_Category merged)) /\
      (forall bars,
          the_bars (requested (visualize_expenses lib df d)) = Some bars -> bars = merged) /\
      (df <> [] -> snd (tab1 lib df) = None -> snd (tab2 lib df) = None ->
       the_bars (requested (visualize_expenses lib df d)) = Some merged /\
       if lib_draws lib (bar_chart merged)
       then snd (visualize_expenses lib df d) = None /\
            the_bars (fst (visualize_expenses lib df d)) = Some merged
       else snd (visualize_expenses lib df d) = Some (PlotError (bar_chart merged))) /\
      (df = [] -> the_bars (requested (visualize_expenses lib df d)) = None).
Proof.
  intros lib df d Hbud.
  exists (map (joined_row df) (get_budgets d)).
  pose proof (tab3_bars lib df d Hbud) as Htab.
  split; [exact Htab|].
  split.
  { clear Hbud Htab.
    induction (get_budgets d) as [|cb rest IH]; simpl; constructor; [|exact IH].
    split; [reflexivity|]. split; [reflexivity|].
    split; [apply joined_row_amount|]. split; [reflexivity|].
    intros Hnone Hpos.
    unfold joined_row. simpl. rewrite lookup_category_totals, Hnone. simpl.
    rewrite (fillna0_positive _ Hpos).
    change (fillna0 nan) with zero. now apply zero_percent. }
  split.
  { intros c Hc Hin. apply Hc. rewrite map_map in Hin. exact Hin. }
  split.
  { intros bars Hbars. apply visualize_expenses_bars in Hbars.
    rewrite Htab, requested_plot in Hbars. congruence. }
  split.
  - intros Hdf H1 H2.
    destruct (visualize_expenses_reaches_tab3 lib df d Hdf H1 H2) as [Hexn [Hreq Hpage]].
    rewrite Hreq, Hexn, Hpage, Htab, requested_plot. split; [reflexivity|].
    unfold plot. destruct (lib_draws lib _); [split|]; reflexivity.
  - intros ->. reflexivity.
Qed.

Lemma budget_utilization_right_join_witness :
  get_budgets (set_budget "alice" "Transport" 50%float
                 (set_budget "alice" "Food" 100%float empty_db)) <> [] /\
  exists merged,
    tab3 iso_library
         [mk_row "2024-01-05" "Food" "lunch" 50%float; mk_row "2024-01-06" "Health" "gym" 30%float]
         (set_budget "alice" "Transport" 50%float
            (set_budget "alice" "Food" 100%float empty_db))
    = ([bar_chart merged], None) /\
    merged = [mk_merged "Food" 50 100 50; mk_merged "Transport" 0 50 0].
Proof.
  split; [discriminate|].
  destruct (budget_utilization_right_join iso_library
              [mk_row "2024-01-05" "Food" "lunch" 50%float;
               mk_row "2024-01-06" "Health" "gym" 30%float]
              (set_budget "alice" "Transport" 50%float
                 (set_budget "alice" "Food" 100%float empty_db))
              ltac:(discriminate))
    as [merged [Htab _]].
  exists merged. split; [exact Htab|].
  vm_compute in Htab. injection Htab as <-. reflexivity.
Defined.

(** C4 as first stated fails twice over.  With a budget of 0 for Food
    and nothing spent on Food, the Food row handed to the bar plot holds
    NaN and not 0%.  With an empty expense frame and a budget of 100 for
    Food, visualize_expenses shows its "no data" message and asks for no
    bar for the budgeted category. *)
Lemma budget_utilization_counterexample :
  (exists merged,
      the_bars (requested (visualize_expenses iso_library
                             [mk_row "2024-01-05" "Transport" "bus" 5%float]
                             (set_budget "alice" "Food" 0%float empty_db)))
      = Some merged /\
      merged = [mk_merged "Food" 0 0 nan] /\
      Forall (fun row => (merged_Percentage row =? 0)%float = false) merged) /\
  visualize_expenses iso_library [] (set_budget "alice" "Food" 100%float empty_db)
  = ([st_info "No data available for visualization."], None) /\
  the_bars (requested (visualize_expenses iso_library []
                         (set_budget "alice" "Food" 100%float empty_db))) = None.
Proof.
  split.
  - eexists. split; [vm_compute; reflexivity|]. split; [reflexivity|].
    repeat constructor.
  - split; reflexivity.
Qed.

End Utilization.

(** ** A budget of zero *)

Section ZeroBudget.
Import PrimFloat.

(** C2 (as amended).  With a budget row whose Budget reads as 0, the
    Budget vs Actual tab computes its frame without raising and hands it to
    the bar plot; the row of that category carries Percentage = Amount / 0
    * 100 as IEEE arithmetic gives it, which is NaN or an infinity
    (+infinity for a positive Amount, -infinity for a negative one, NaN
    for an Amount of 0): the value is passed on to the plotting call, and
    no separate "undefined" state is signalled.  visualize_expenses asks
    for these bars whenever the expense frame is not empty and the two
    tabs before raise nothing, and then ends as the plotting call ends. *)
Theorem zero_budget_percentage_propagates :
  forall (lib : library) (df : DataFrame) (d : db) (c : string) (b : float),
    In (c, b) (get_budgets d) ->
    (b =? 0)%float = true ->
    exists merged row,
      tab3 lib df d = plot lib (bar_chart merged) /\
      In row merged /\
      merged_Category row = c /\
      merged_Budget row = b /\
      b = zero /\
      merged_Percentage row = (merged_Amount row / b * 100)%float /\
      is_nan (merged_Percentage row) || is_infinity (merged_Percentage row) = true /\
      ((0 <? merged_Amount row)%float = true -> merged_Percentage row = infinity) /\
      ((merged_Amount row <? 0)%float = true -> merged_Percentage row = neg_infinity) /\
      ((merged_Amount row =? 0)%float = true -> is_nan (merged_Percentage row) = true) /\
      (df <> [] -> snd (tab1 lib df) = None -> snd (tab2 lib df) = None ->
       the_bars (requested (visualize_expenses lib df d)) = Some merged /\
       snd (visualize_expenses lib df d) = snd (plot lib (bar_chart merged))).
Proof.
  intros lib df d c b Hin Hb.
  assert (Hbud : get_budgets d <> []) by (intros Hnil; rewrite Hnil in Hin; contradiction).
  assert (Hzero : b = zero).
  { unfold get_budgets in Hin. apply in_map_iff in Hin.
    destruct Hin as [r [Heq _]]. injection Heq as _ <-. now apply read_real_zero. }
  exists (map (joined_row df) (get_budgets d)), (joined_row df (c, b)).
  assert (Hpct : merged_Percentage (joined_row df (c, b))
                 = (merged_Amount (joined_row df (c, b)) / b * 100)%float).
  { unfold joined_row. cbn [with_percentage fst snd merged_Percentage merged_Amount].
    now rewrite (fillna0_eqb_zero b Hb). }
  pose proof (tab3_bars lib df d Hbud) as Htab.
  split; [exact Htab|].
  split; [now apply in_map|].
  split; [reflexivity|].
  split; [exact (fillna0_eqb_zero b Hb)|].
  split; [exact Hzero|].
  split; [exact Hpct|].
  split; [rewrite Hpct; now apply percent_of_zero_budget|].
  split; [intros Hpos; rewrite Hpct, Hzero; now apply percent_positive_over_zero|].
  split; [intros Hneg; rewrite Hpct, Hzero; now apply percent_negative_over_zero|].
  split; [intros Hz; rewrite Hpct, Hzero; now apply percent_zero_over_zero|].
  intros Hdf H1 H2.
  destruct (visualize_expenses_reaches_tab3 lib df d Hdf H1 H2) as [Hexn [Hreq _]].
  rewrite Hreq, Hexn, Htab, requested_plot. split; reflexivity.
Qed.

Lemma zero_budget_percentage_propagates_witness :
  In ("Food"%string, 0%float)
     (get_budgets (set_budget "alice" "Food" (-0)%float empty_db)) /\
  exists merged,
    tab3 iso_library [mk_row "2024-01-05" "Food" "lunch" 10%float]
         (set_budget "alice" "Food" (-0)%float empty_db)
    = ([bar_chart merged], None) /\
    merged = [mk_merged "Food" 10 0 infinity].
Proof.
  split; [now left|].
  destruct (zero_budget_percentage_propagates iso_library
              [mk_row "2024-01-05" "Food" "lunch" 10%float]
              (set_budget "alice" "Food" (-0)%float empty_db)
              "Food" 0%float (or_introl eq_refl) eq_refl)
    as [merged [row [Htab _]]].
  exists merged. split; [exact Htab|].
  vm_compute in Htab. injection Htab as <-. reflexivity.
Defined.

(** C2 as first stated fails: with budgets of 0 for Food and for
    Transport and 10 spent on Food, the frame handed to the bar plot
    carries +infinity for Food and NaN for Transport, and nothing else on
    the page marks them. *)
Lemma zero_budget_counterexample :
  visualize_expenses iso_library
    [mk_row "2024-01-05" "Food" "lunch" 10%float]
    (set_budget "alice" "Transport" 0%float (set_budget "alice" "Food" 0%float empty_db))
  = ([pie_chart [("Food"%string, 10%float)];
      line_chart [(mk_date 2024 1 31, 10%float)];
      bar_chart [mk_merged "Food" 10 0 infinity; mk_merged "Transport" 0 0 nan]],
     None) /\
  Forall (fun row => is_finite (merged_Percentage row) = false)
         [mk_merged "Food" 10 0 infinity; mk_merged "Transport" 0 0 nan].
Proof.
  split; [vm_compute; reflexivity|]. repeat constructor.
Qed.

End ZeroBudget.

(** ** The monthly trend *)

Section Monthly.
Import PrimFloat.
Local Open Scope Z_scope.

Lemma date_ltb_iff (a b : date) :
  date_ltb a b = true <->
  year a < year b \/
  (year a = year b /\ (month a < month b \/ (month a = month b /\ day a < day b))).
Proof.
  unfold date_ltb.
  rewrite !orb_true_iff, !andb_true_iff, !orb_true_iff, !andb_true_iff,
    !Z.ltb_lt, !Z.eqb_eq.
  reflexivity.
Qed.

Lemma stamp_ltb_iff (a b : timestamp) :
  stamp_ltb a b = true <->
  month_index (stamp_date a) < month_index (stamp_date b) \/
  (month_index (stamp_date a) = month_index (stamp_date b) /\
   (day (stamp_date a) < day (stamp_date b) \/
    (day (stamp_date a) = day (stamp_date b) /\ stamp_time a < stamp_time b))).
Proof.
  unfold stamp_ltb.
  rewrite !orb_true_iff, !andb_true_iff, !orb_true_iff, !andb_true_iff,
    !Z.ltb_lt, !Z.eqb_eq.
  reflexivity.
Qed.

Lemma stamp_ltb_false_iff (a b : timestamp) :
  stamp_ltb a b = false <->
  month_index (stamp_date b) < month_index (stamp_date a) \/
  (month_index (stamp_date a) = month_index (stamp_date b) /\
   (day (stamp_date b) < day (stamp_date a) \/
    (day (stamp_date a) = day (stamp_date b) /\ stamp_time b <= stamp_time a))).
Proof.
  rewrite <- not_true_iff_false, stamp_ltb_iff. lia.
Qed.

(** The stable sort puts the rows in timestamp order and keeps them all. *)
Lemma insert_by_date_Forall (P : timestamp * float -> Prop) (r : timestamp * float)
      (l : list (timestamp * float)) :
  P r -> Forall P l -> Forall P (insert_by_date r l).
Proof.
  intros Hr. induction l as [|x l IH]; simpl; intros Hl.
  - constructor; [exact Hr | constructor].
  - inversion Hl; subst. destruct (stamp_ltb (fst r) (fst x)).
    + constructor; assumption.
    + constructor; [assumption | now apply IH].
Qed.

Lemma insert_by_date_sorted (r : timestamp * float) (l : list (timestamp * float)) :
  StronglySorted row_le l -> StronglySorted row_le (insert_by_date r l).
Proof.
  induction 1 as [|x l Hs IH Hall]; simpl.
  - repeat constructor.
  - destruct (stamp_ltb (fst r) (fst x)) eqn:Hcmp.
    + constructor; [constructor; assumption|].
      apply stamp_ltb_iff in Hcmp.
      constructor.
      * unfold row_le. apply stamp_ltb_false_iff. lia.
      * eapply Forall_impl; [|exact Hall].
        intros y Hy. unfold row_le in *.
        apply stamp_ltb_false_iff in Hy. apply stamp_ltb_false_iff. lia.
    + constructor; [exact IH|].
      apply insert_by_date_Forall; [exact Hcmp | exact Hall].
Qed.

Lemma insert_by_date_perm (r : timestamp * float) (l : list (timestamp * float)) :
  Permutation (insert_by_date r l) (r :: l).
Proof.
  induction l as [|x l IH]; simpl; [reflexivity|].
  destruct (stamp_ltb (fst r) (fst x)); [reflexivity|].
  rewrite IH. apply perm_swap.
Qed.

Lemma sort_by_date_fold (rows : list (timestamp * float)) :
  forall acc,
    StronglySorted row_le acc ->
    StronglySorted row_le (fold_left (fun acc r => insert_by_date r acc) rows acc) /\
    Permutation (fold_left (fun acc r => insert_by_date r acc) rows acc) (acc ++ rows).
Proof.
  induction rows as [|r rows IH]; simpl; intros acc Hacc.
  - rewrite app_nil_r. split; [exact Hacc | reflexivity].
  - destruct (IH _ (insert_by_date_sorted r acc Hacc)) as [Hs Hp].
    split; [exact Hs|]. rewrite Hp, insert_by_date_perm.
    apply (Permutation_middle acc rows r).
Qed.

Lemma sort_by_date_sorted (rows : list (timestamp * float)) :
  StronglySorted row_le (sort_by_date rows).
Proof. apply (sort_by_date_fold rows []). constructor. Qed.

Lemma sort_by_date_perm (rows : list (timestamp * float)) :
  Permutation (sort_by_date rows) rows.
Proof. apply (sort_by_date_fold rows []). constructor. Qed.

Lemma row_le_refl (x : timestamp * float) : row_le x x.
Proof. unfold row_le. apply stamp_ltb_false_iff. lia. Qed.

Lemma sorted_last_max (l : list (timestamp * float)) :
  StronglySorted row_le l ->
  forall x d, In x l -> row_le x (last l d).
Proof.
  induction 1 as [|y l Hs IH Hall]; intros x d Hin; [contradiction|].
  destruct l as [|z l].
  - destruct Hin as [<- | []]. apply row_le_refl.
  - change (last (y :: z :: l) d) with (last (z :: l) d).
    destruct Hin as [<- | Hin].
    + rewrite Forall_forall in Hall. apply Hall.
      destruct (exists_last (l := z :: l)) as [l' [a Heq]]; [discriminate|].
      rewrite Heq, last_last. apply in_or_app. right. now left.
    + now apply IH.
Qed.

Lemma month_index_mono (a b : timestamp * float) :
  row_le a b ->
  month_index (stamp_date (fst a)) <= month_index (stamp_date (fst b)).
Proof.
  unfold row_le. intros Hle. apply stamp_ltb_false_iff in Hle. lia.
Qed.

Lemma in_months (mi lo : Z) (n : nat) :
  In mi (months lo n) <-> lo <= mi < lo + Z.of_nat n.
Proof.
  revert lo. induction n as [|n IH]; intros lo; simpl.
  - lia.
  - rewrite IH. lia.
Qed.

Lemma months_sorted (lo : Z) (n : nat) : StronglySorted Z.lt (months lo n).
Proof.
  revert lo. induction n as [|n IH]; intros lo; simpl; constructor; [apply IH|].
  apply Forall_forall. intros mi Hin. apply in_months in Hin. lia.
Qed.

Lemma month_index_month_end (mi : Z) : month_index (month_end mi) = mi.
Proof.
  unfold month_index, month_end. cbn [year month].
  Z.div_mod_to_equations. lia.
Qed.

Lemma month_end_mono (mi mj : Z) :
  mi < mj -> date_ltb (month_end mi) (month_end mj) = true.
Proof.
  intros Hlt. apply date_ltb_iff. unfold month_end. cbn [year month day].
  Z.div_mod_to_equations. lia.
Qed.

Lemma month_end_of_month (dt : date) :
  1 <= month dt <= 12 ->
  month_end (month_index dt) = mk_date (year dt) (month dt) (days_in_month (year dt) (month dt)).
Proof.
  intros Hv.
  unfold month_end, month_index.
  assert (Hq : (12 * year dt + (month dt - 1)) / 12 = year dt)
    by (Z.div_mod_to_equations; lia).
  assert (Hr : (12 * year dt + (month dt - 1)) mod 12 + 1 = month dt)
    by (Z.div_mod_to_equations; lia).
  rewrite Hq, Hr. reflexivity.
Qed.

Lemma resample_M_sum_unfold (rows : list (timestamp * float)) (first : timestamp * float)
      (rest : list (timestamp * float)) :
  sort_by_date rows = first :: rest ->
  resample_M_sum rows
  = map (fun mi => (month_end mi,
                    group_sum (map snd (filter (in_month mi) (sort_by_date rows)))))
        (months (month_index (stamp_date (fst first)))
                (Z.to_nat (month_index (stamp_date (fst (last (sort_by_date rows) first)))
                           - month_index (stamp_date (fst first)) + 1))).
Proof. unfold resample_M_sum. intros ->. reflexivity. Qed.

(** Every row lies between the first and the last month of the sorted frame. *)
Lemma sorted_month_bounds (sorted : list (timestamp * float)) (first : timestamp * float)
      (rest : list (timestamp * float)) :
  sorted = first :: rest ->
  StronglySorted row_le sorted ->
  forall r, In r sorted ->
    month_index (stamp_date (fst first)) <= month_index (stamp_date (fst r))
    <= month_index (stamp_date (fst (last sorted first))).
Proof.
  intros Heq Hs r Hin.
  split.
  - apply month_index_mono.
    rewrite Heq in Hs, Hin. inversion Hs as [|x l Hs' Hall]; subst.
    destruct Hin as [<- | Hin]; [apply row_le_refl|].
    rewrite Forall_forall in Hall. now apply Hall.
  - apply month_index_mono. now apply sorted_last_max.
Qed.

Lemma resample_M_sum_nonempty (rows : list (timestamp * float)) :
  rows <> [] -> resample_M_sum rows <> [].
Proof.
  intros Hrows.
  pose proof (sort_by_date_perm rows) as Hperm.
  pose proof (sort_by_date_sorted rows) as Hs.
  destruct (sort_by_date rows) as [|first rest] eqn:Hsort.
  { apply Permutation_nil in Hperm. congruence. }
  rewrite (resample_M_sum_unfold rows first rest Hsort), Hsort.
  destruct (sorted_month_bounds (first :: rest) first rest eq_refl Hs first
              (or_introl eq_refl)) as [_ Hhi].
  destruct (Z.to_nat _) eqn:Hn; [lia | discriminate].
Qed.

(** With one timestamp per row of a frame that is not empty, the Monthly
    Trend tab asks for the line chart of the monthly totals. *)
Lemma tab2_line_chart (lib : library) (df : DataFrame) (stamps : list timestamp) :
  df <> [] ->
  lib_to_datetime lib (map Date df) = Some stamps ->
  List.length stamps = List.length df ->
  tab2 lib df = plot lib (line_chart (monthly_totals stamps df)) /\
  monthly_totals stamps df <> [].
Proof.
  intros Hdf Hstamps Hlen. unfold tab2. rewrite Hstamps, Hlen, Nat.eqb_refl.
  assert (Hne : monthly_totals stamps df <> []).
  { apply resample_M_sum_nonempty.
    destruct df as [|r df]; [congruence|]. destruct stamps; simpl in *; discriminate. }
  split; [|exact Hne].
  destruct (monthly_totals stamps df); [congruence | reflexivity].
Qed.

(** When the pie raises nothing, the trend asked for is the one of the
    Monthly Trend tab. *)
Lemma visualize_expenses_trend (lib : library) (df : DataFrame) (d : db)
      (monthly : list (date * float)) :
  df <> [] ->
  snd (tab1 lib df) = None ->
  tab2 lib df = plot lib (line_chart monthly) ->
  the_trend (requested (visualize_expenses lib df d)) = Some monthly.
Proof.
  intros Hdf H1 H2. unfold visualize_expenses.
  destruct df as [|r df]; [congruence|]. cbn [is_empty].
  rewrite H2. unfold plot.
  destruct (tab1_shape lib (r :: df) Hdf) as [[_ Ht] | [[_ [_ Ht]] | [_ [_ Ht]]]];
    rewrite Ht in *; try discriminate;
    destruct (lib_draws lib (line_chart monthly)); try reflexivity;
    destruct (tab3_shape lib (r :: df) d) as [-> | [-> | [merged [-> | ->]]]];
    reflexivity.
Qed.

End Monthly.

Section MonthlyTrend.
Import PrimFloat.
Local Open Scope Z_scope.



End MonthlyTrend.

(* ================================================================== *)
(** * Further properties of the script *)
(* ================================================================== *)

(** ** The shape of a password digest *)

Section DigestFormat.
Import Script.
Local Open Scope Z_scope.

Lemma be_bytes_length (n : nat) (x : Z) : List.length (SHA256.be_bytes n x) = n.
Proof. induction n as [|n IH]; simpl; [reflexivity | now rewrite IH]. Qed.

Lemma be_bytes_bytes (n : nat) (x : Z) : Forall is_byte (SHA256.be_bytes n x).
Proof.
  induction n as [|n IH]; simpl; constructor; [|exact IH].
  unfold is_byte. change 0xff with (Z.ones 8).
  rewrite Z.land_ones by lia. apply Z.mod_pos_bound. lia.
Qed.

Lemma compress_length (h block : list Z) : List.length (SHA256.compress h block) = 8%nat.
Proof. reflexivity. Qed.

Lemma fold_compress_length (bs : list (list Z)) :
  forall h, List.length h = 8%nat ->
            List.length (fold_left SHA256.compress bs h) = 8%nat.
Proof.
  induction bs as [|b bs IH]; simpl; intros h Hh; [exact Hh|].
  apply IH. apply compress_length.
Qed.

Lemma flat_map_be_bytes (ws : list Z) :
  List.length (flat_map (SHA256.be_bytes 4) ws) = (4 * List.length ws)%nat /\
  Forall is_byte (flat_map (SHA256.be_bytes 4) ws).
Proof.
  induction ws as [|w ws [IHlen IHbytes]]; [split; [reflexivity | constructor]|].
  cbn [flat_map]. split.
  - rewrite length_app, be_bytes_length, IHlen. simpl. lia.
  - apply Forall_app. split; [apply be_bytes_bytes | exact IHbytes].
Qed.

Lemma digest_bytes (msg : list Z) :
  List.length (SHA256.digest msg) = 32%nat /\ Forall is_byte (SHA256.digest msg).
Proof.
  unfold SHA256.digest.
  destruct (flat_map_be_bytes
              (fold_left SHA256.compress
                 (SHA256.blocks
                    (List.length (SHA256.words (List.length (SHA256.pad msg)) (SHA256.pad msg)))
                    (SHA256.words (List.length (SHA256.pad msg)) (SHA256.pad msg)))
                 SHA256.H0)) as [Hlen Hbytes].
  split; [|exact Hbytes].
  cbv zeta. rewrite Hlen, fold_compress_length; reflexivity.
Qed.

Lemma hex_digit_is_hex (d : Z) :
  0 <= d < 16 -> is_hex_char (SHA256.hex_digit d) = true.
Proof.
  intros Hd.
  assert (Hcases : d = 0 \/ d = 1 \/ d = 2 \/ d = 3 \/ d = 4 \/ d = 5 \/ d = 6 \/ d = 7 \/
                   d = 8 \/ d = 9 \/ d = 10 \/ d = 11 \/ d = 12 \/ d = 13 \/ d = 14 \/ d = 15)
    by lia.
  repeat (destruct Hcases as [-> | Hcases]; [reflexivity|]).
  subst d. reflexivity.
Qed.

Lemma hex_format (bs : list Z) :
  Forall is_byte bs ->
  String.length (SHA256.hex bs) = (2 * List.length bs)%nat /\
  forallb is_hex_char (list_ascii_of_string (SHA256.hex bs)) = true.
Proof.
  induction 1 as [|b bs Hb Hbs [IHlen IHhex]]; [split; reflexivity|].
  cbn [SHA256.hex String.length list_ascii_of_string forallb List.length].
  unfold is_byte in Hb. split.
  - rewrite IHlen. lia.
  - rewrite IHhex, !hex_digit_is_hex; [reflexivity | |].
    + change 0xf with (Z.ones 4). rewrite Z.land_ones by lia.
      apply Z.mod_pos_bound. lia.
    + rewrite Z.shiftr_div_pow2 by lia. change (2 ^ 4) with 16.
      Z.div_mod_to_equations. lia.
Qed.

(** X1.  Whatever the password, hash_password returns 64 characters,
    each one of 0-9 and a-f. *)
Theorem hash_password_format :
  forall password : string,
    String.length (hash_password password) = 64%nat /\
    forallb is_hex_char (list_ascii_of_string (hash_password password)) = true.
Proof.
  intros password. unfold hash_password, SHA256.hexdigest.
  destruct (digest_bytes (SHA256.encode password)) as [Hlen Hbytes].
  destruct (hex_format _ Hbytes) as [Hhexlen Hhex].
  split; [|exact Hhex]. rewrite Hhexlen, Hlen. reflexivity.
Qed.

End DigestFormat.

(** ** Accounts *)

Section Accounts.
Import Script.

Lemma find_snoc {A : Type} (f : A -> bool) (l : list A) (x : A) :
  find f (l ++ [x])
  = match find f l with
    | Some y => Some y
    | None => if f x then Some x else None
    end.
Proof.
  induction l as [|y l IH]; simpl; [reflexivity|].
  destruct (f y); [reflexivity | exact IH].
Qed.

Lemma authenticate_register (u p v q : string) (d : db) :
  authenticate v q (register u p d)
  = authenticate v q d
    || (String.eqb u v && String.eqb (hash_password p) (hash_password q)).
Proof.
  unfold authenticate, register, login_user, add_user, insert_into. simpl.
  rewrite find_snoc.
  destruct (find _ (users d)); simpl; [reflexivity|].
  destruct (String.eqb u v && String.eqb (hash_password p) (hash_password q)); reflexivity.
Qed.

(** X2.  Signing up never takes a login away and never checks for an
    existing username: after register(u, p), a login that worked before
    still works, a login with another username is decided as before, and
    for the username [u] every password whose digest is that of [p] is
    accepted besides those accepted before.  In particular a second sign-up
    under a taken username leaves both passwords valid, and both see the
    same expense list. *)
Theorem register_adds_one_login :
  forall (u p v q : string) (d : db),
    authenticate v q (register u p d)
    = authenticate v q d
      || (String.eqb u v && String.eqb (hash_password p) (hash_password q)) /\
    (authenticate v q d = true -> authenticate v q (register u p d) = true) /\
    (u <> v -> authenticate v q (register u p d) = authenticate v q d) /\
    authenticate u p (register u q (register u p d)) = true /\
    authenticate u q (register u q (register u p d)) = true /\
    get_expenses v (register u p d) = get_expenses v d.
Proof.
  intros u p v q d.
  split; [apply authenticate_register|].
  split; [intros H; rewrite authenticate_register, H; reflexivity|].
  split.
  { intros Hneq. rewrite authenticate_register.
    apply String.eqb_neq in Hneq. rewrite Hneq. apply orb_false_r. }
  split.
  { rewrite !authenticate_register, !String.eqb_refl. simpl.
    now rewrite !orb_true_r. }
  split.
  { rewrite authenticate_register, !String.eqb_refl. simpl. apply orb_true_r. }
  reflexivity.
Qed.

(** X3.  On a table with no row for [u], after register(u, p) the logins
    accepted for [u] are exactly those whose password has the digest of
    [p]. *)
Theorem fresh_user_password_check :
  forall (u p q : string) (d : db),
    (forall r, In r (users d) -> users_username r <> u) ->
    (authenticate u q (register u p d) = true
     <-> hash_password q = hash_password p).
Proof.
  intros u p q d Hfresh.
  rewrite authenticate_register, String.eqb_refl. simpl.
  assert (Hno : authenticate u q d = false).
  { unfold authenticate. destruct (login_user u (hash_password q) d) as [row|] eqn:Hl;
      [|reflexivity].
    apply login_user_some in Hl. destruct Hl as [Hin [Hu _]].
    exfalso. exact (Hfresh row Hin Hu). }
  rewrite Hno. simpl. rewrite String.eqb_eq. split; congruence.
Qed.

Lemma fresh_user_password_check_witness :
  (forall r, In r (users empty_db) -> users_username r <> "alice"%string) /\
  authenticate "alice" "secret" (register "alice" "secret" empty_db) = true /\
  authenticate "alice" "hunter2" (register "alice" "secret" empty_db) = false.
Proof.
  assert (Hfresh : forall r, In r (users empty_db) -> users_username r <> "alice"%string)
    by (intros r []).
  split; [exact Hfresh|]. split.
  - apply (fresh_user_password_check "alice" "secret" "secret" empty_db Hfresh).
    reflexivity.
  - destruct (authenticate "alice" "hunter2" (register "alice" "secret" empty_db)) eqn:Ha;
      [|reflexivity].
    apply (fresh_user_password_check "alice" "secret" "hunter2" empty_db Hfresh) in Ha.
    vm_compute in Ha. discriminate.
Defined.

End Accounts.

(** ** Budgets are shared and accumulate *)

Section SharedBudgets.
Import PrimFloat.

Lemma get_budgets_set_budget (u c : string) (a : float) (d : db) :
  get_budgets (set_budget u c a d) = get_budgets d ++ [(c, read_real a)].
Proof.
  unfold get_budgets. rewrite set_budget_appends, map_app. reflexivity.
Qed.

(** X4.  get_budgets has no WHERE clause and set_budget deletes
    nothing: whoever calls set_budget(u, c, a), get_budgets returns one
    more pair, (c, a) with [a] as the REAL column gives it back, after
    those it returned before; and the frame that the Budget vs Actual tab
    hands to the bar plot, for the expense frame of any user, is the frame
    it handed before followed by one more row for that pair. *)
Theorem set_budget_adds_a_row_for_everyone :
  forall (lib : library) (u c : string) (a : float) (d : db) (df : DataFrame),
    get_budgets (set_budget u c a d) = get_budgets d ++ [(c, read_real a)] /\
    the_bars (requested (tab3 lib df (set_budget u c a d)))
    = Some (map (joined_row df) (get_budgets d) ++ [joined_row df (c, read_real a)]) /\
    (forall rows, the_bars (requested (tab3 lib df d)) = Some rows ->
                  the_bars (requested (tab3 lib df (set_budget u c a d)))
                  = Some (rows ++ [joined_row df (c, read_real a)])).
Proof.
  intros lib u c a d df.
  assert (Htab : the_bars (requested (tab3 lib df (set_budget u c a d)))
                 = Some (map (joined_row df) (get_budgets d)
                           ++ [joined_row df (c, read_real a)])).
  { rewrite tab3_requested_bars, get_budgets_set_budget, map_app.
    destruct (get_budgets d); reflexivity. }
  split; [apply get_budgets_set_budget|]. split; [exact Htab|].
  intros rows Hrows. rewrite Htab.
  rewrite tab3_requested_bars in Hrows.
  destruct (is_empty (get_budgets d)); [discriminate|].
  injection Hrows as <-. reflexivity.
Qed.

End SharedBudgets.

(** ** Messages that are never shown *)

Section DeadBranches.
Import PrimFloat.

Lemma and_then_page (a b : list widget * option exn) (w : widget) :
  In w (fst (and_then a b)) -> In w (fst a) \/ In w (fst b).
Proof.
  unfold and_then. destruct (snd a); cbn [fst]; [now left|].
  apply in_app_or.
Qed.

Lemma plot_page (lib : library) (chart w : widget) :
  In w (fst (plot lib chart)) -> w = chart.
Proof.
  unfold plot. destruct (lib_draws lib chart); cbn [fst].
  - intros [H | []]. now symmetry.
  - intros [].
Qed.

(** X5.  Two of the warnings of visualize_expenses can never appear on
    the page.  The frame is not empty when the Monthly Trend tab is
    reached, so the resampled series has at least one bucket and "Not
    enough data to show monthly trend." is not shown; a right join keeps
    every budget row, so the merged frame is empty only if there are no
    budgets, and then "No budgets set." is shown instead of "No budget
    comparison data.". *)
Theorem warnings_never_shown :
  forall (lib : library) (df : DataFrame) (d : db),
    ~ In (st_warning "Not enough data to show monthly trend.")
         (fst (visualize_expenses lib df d)) /\
    ~ In (st_warning "No budget comparison data.") (fst (visualize_expenses lib df d)) /\
    ~ In (st_warning "No budget comparison data.") (fst (tab3 lib df d)).
Proof.
  intros lib df d.
  assert (H3 : forall msg, msg <> "No budgets set."%string ->
                           ~ In (st_warning msg) (fst (tab3 lib df d))).
  { intros msg Hmsg. destruct (get_budgets d) as [|cb rest] eqn:Hb.
    - unfold tab3. rewrite Hb. simpl. intros [H | []]. congruence.
    - rewrite tab3_bars by (rewrite Hb; discriminate).
      intros H. apply plot_page in H. discriminate. }
  assert (H1 : forall msg, msg <> "No category data available for pie chart."%string ->
                           ~ In (st_warning msg) (fst (tab1 lib df))).
  { intros msg Hmsg. unfold tab1. destruct (_ || _).
    - simpl. intros [H | []]. congruence.
    - intros H. apply plot_page in H. discriminate. }
  assert (H2 : df <> [] -> forall msg, ~ In (st_warning msg) (fst (tab2 lib df))).
  { intros Hdf msg. unfold tab2.
    destruct (lib_to_datetime lib (map Date df)) as [stamps|] eqn:Hstamps; [|intros []].
    destruct (_ =? _)%nat eqn:Hlen; [|intros []].
    apply Nat.eqb_eq in Hlen.
    destruct (tab2_line_chart lib df stamps Hdf Hstamps Hlen) as [_ Hne].
    destruct (monthly_totals stamps df); [congruence|]. cbn [is_empty].
    intros H. apply plot_page in H. discriminate. }
  assert (Hpage :
            forall msg,
              msg <> "No category data available for pie chart."%string ->
              msg <> "No budgets set."%string ->
              msg <> "No data available for visualization."%string ->
              ~ In (st_warning msg) (fst (visualize_expenses lib df d))).
  { intros msg Hm1 Hm2 Hm3. unfold visualize_expenses.
    destruct df as [|r df].
    - simpl. intros [H | []]. discriminate.
    - cbn [is_empty]. intros Hin.
      apply and_then_page in Hin. destruct Hin as [Hin | Hin]; [exact (H1 msg Hm1 Hin)|].
      apply and_then_page in Hin. destruct Hin as [Hin | Hin].
      + exact (H2 ltac:(discriminate) msg Hin).
      + exact (H3 msg Hm2 Hin). }
  split; [apply Hpage; discriminate|].
  split; [apply Hpage; discriminate|].
  apply H3. discriminate.
Qed.

End DeadBranches.

(** ** Dates written by the Add Expense form are read back *)

Section DateRoundTrip.
Import Script.
Local Open Scope Z_scope.

Lemma digit_digit_char (k : Z) : 0 <= k <= 9 -> digit (digit_char k) = Some k.
Proof.
  intros Hk.
  assert (Hcases : k = 0 \/ k = 1 \/ k = 2 \/ k = 3 \/ k = 4 \/
                   k = 5 \/ k = 6 \/ k = 7 \/ k = 8 \/ k = 9) by lia.
  repeat (destruct Hcases as [-> | Hcases]; [reflexivity|]).
  subst k. reflexivity.
Qed.

Lemma number_two_digits (n : Z) : 0 <= n < 100 -> number 0 (two_digits n) = Some n.
Proof.
  intros Hn. unfold two_digits. cbn [number].
  rewrite !digit_digit_char by (Z.div_mod_to_equations; lia).
  f_equal. Z.div_mod_to_equations. lia.
Qed.

Lemma number_four_digits (n : Z) : 0 <= n < 10000 -> number 0 (four_digits n) = Some n.
Proof.
  intros Hn. unfold four_digits. cbn [number].
  rewrite !digit_digit_char by (Z.div_mod_to_equations; lia).
  f_equal. Z.div_mod_to_equations. lia.
Qed.

Lemma days_in_month_bound (y m : Z) : 28 <= days_in_month y m <= 31.
Proof.
  unfold days_in_month.
  destruct (m =? 2); [destruct (is_leap y); lia|].
  destruct (_ || _); lia.
Qed.

Lemma parse_strftime (dt : date) :
  valid_date dt = true -> parse_date (strftime dt) = Some dt.
Proof.
  destruct dt as [y m d]. intros Hv.
  pose proof Hv as Hv'. unfold valid_date in Hv'. cbn [year month day] in Hv'.
  rewrite !andb_true_iff, !Z.leb_le in Hv'.
  pose proof (days_in_month_bound y m).
  unfold parse_date, strftime. rewrite list_ascii_of_string_of_list_ascii.
  cbn [year month day four_digits two_digits app].
  change (is_dash "-" && is_dash "-") with true. cbv iota.
  fold (four_digits y). fold (two_digits m). fold (two_digits d).
  rewrite number_four_digits, !number_two_digits by lia.
  rewrite Hv. reflexivity.
Qed.

(** X6.  The string that date.strftime('%Y-%m-%d') writes for a calendar
    date is ten characters long and pd.to_datetime reads the same date back
    from it. *)
Theorem strftime_parse_date :
  forall dt : date,
    valid_date dt = true ->
    parse_date (strftime dt) = Some dt /\ String.length (strftime dt) = 10%nat.
Proof.
  intros dt Hv. split; [now apply parse_strftime | reflexivity].
Qed.

Lemma strftime_parse_date_witness :
  valid_date (mk_date 2024 2 29) = true /\
  strftime (mk_date 2024 2 29) = "2024-02-29"%string /\
  parse_date "2024-02-29" = Some (mk_date 2024 2 29).
Proof.
  split; [reflexivity|]. split; [reflexivity|].
  change "2024-02-29"%string with (strftime (mk_date 2024 2 29)).
  apply (strftime_parse_date (mk_date 2024 2 29) eq_refl).
Defined.

End DateRoundTrip.

(** ** What every run of the script preserves *)

Section Runs.
Import Script PrimFloat.

Lemma run_snoc (cs : list click) (c : click) (st : state) :
  run (cs ++ [c]) st = step c (run cs st).
Proof. unfold run. rewrite fold_left_app. reflexivity. Qed.

(** A click appends rows, to one table at most, and never logs out. *)
Lemma step_grows (c : click) (st : state) :
  (exists us, users (store (step c st)) = users (store st) ++ us) /\
  (exists es, expenses (store (step c st)) = expenses (store st) ++ es) /\
  (exists bs, budgets (store (step c st)) = budgets (store st) ++ bs) /\
  (logged_in (session st) = true -> logged_in (session (step c st)) = true).
Proof.
  assert (Hsame : forall (A : Type) (l : list A), exists more, l = l ++ more).
  { intros A l. exists []. now rewrite app_nil_r. }
  destruct c as [nu np | u p | dt cat desc a | cat a]; cbn [step].
  - cbn [store session register add_user users expenses budgets].
    split; [eexists; reflexivity|]. auto.
  - cbn [store session]. split; [auto|]. split; [auto|]. split; [auto|].
    unfold login_click. destruct (authenticate u p (store st)); auto.
  - destruct (logged_in (session st)) eqn:Hlog; [|rewrite Hlog; auto 6].
    cbn [store session add_expense users expenses budgets].
    split; [auto|]. split; [eexists; reflexivity|]. auto.
  - destruct (logged_in (session st)) eqn:Hlog; [|rewrite Hlog; auto 6].
    cbn [store session set_budget users expenses budgets].
    split; [auto|]. split; [auto|]. split; [eexists; apply replace_into_budgets|]. auto.
Qed.

Lemma registered_grows (u : string) (d d' : db) :
  (exists us, users d' = users d ++ us) -> registered u d -> registered u d'.
Proof.
  intros [us Hus] [r [Hin Hu]]. exists r. split; [|exact Hu].
  rewrite Hus. apply in_or_app. now left.
Qed.

Lemma authenticate_registered (u p : string) (d : db) :
  authenticate u p d = true -> registered u d.
Proof.
  unfold authenticate. intros H. apply truthy_true in H.
  apply login_user_is_some in H. destruct H as [r [Hin [Hu _]]].
  exists r. auto.
Qed.

Lemma step_consistent (c : click) (st : state) :
  wf_click c -> consistent st -> consistent (step c st).
Proof.
  intros Hwf [Hsess [Hexp Hbud]].
  destruct (step_grows c st) as [Hus _].
  assert (Hreg : forall u, registered u (store st) -> registered u (store (step c st))).
  { intros u. now apply registered_grows. }
  assert (Hexp' : Forall (expense_ok (store (step c st))) (expenses (store st))).
  { eapply Forall_impl; [|exact Hexp]. intros r [H1 H2]. split; auto. }
  assert (Hbud' : Forall (budget_ok (store (step c st))) (budgets (store st))).
  { eapply Forall_impl; [|exact Hbud]. intros r [H1 H2]. split; auto. }
  clear Hus. unfold consistent.
  destruct c as [nu np | u p | dt cat desc a | cat a]; cbn [step] in *.
  - split; [|split]; auto.
  - cbn [store session] in *. split; [|split]; auto.
    unfold login_click. destruct (authenticate u p (store st)) eqn:Hauth; cbn; auto.
    intros _. now apply authenticate_registered with p.
  - destruct (logged_in (session st)) eqn:Hlog;
      [|split; [|split]; auto; congruence].
    cbn [store session] in *. split; [auto|]. split; [|exact Hbud'].
    cbn [add_expense expenses]. unfold insert_into.
    apply Forall_app. split; [exact Hexp'|].
    constructor; [|constructor].
    destruct Hwf as [Hv [Hcat Ha]].
    split; [|split; [|split]]; cbn; auto.
    exists dt. now apply parse_strftime.
  - destruct (logged_in (session st)) eqn:Hlog;
      [|split; [|split]; auto; congruence].
    cbn [store session] in *. split; [auto|]. split; [exact Hexp'|].
    rewrite set_budget_appends.
    apply Forall_app. split; [exact Hbud'|].
    constructor; [|constructor].
    destruct Hwf as [Hcat Ha].
    split; [|split]; cbn; auto.
Qed.

Lemma run_consistent (cs : list click) :
  forall st, Forall wf_click cs -> consistent st -> consistent (run cs st).
Proof.
  induction cs as [|c cs IH]; intros st Hwf Hst; [exact Hst|].
  inversion Hwf; subst. simpl. apply IH; [assumption|].
  now apply step_consistent.
Qed.

Lemma initial_consistent : consistent initial.
Proof. split; [discriminate | split; constructor]. Qed.

(** X7.  From a fresh database, through any sequence of clicks with the
    values the widgets let through: the logged-in username is one that was
    signed up; every expense row belongs to a signed-up username, holds a
    date that pd.to_datetime parses, one of the five categories and an
    amount of at least 0; every budget row belongs to a signed-up username
    and holds one of the five categories and a budget of at least 0. *)
Theorem reachable_rows_well_formed :
  forall cs : list click,
    Forall wf_click cs ->
    (logged_in (session (run cs initial)) = true ->
     registered (username (session (run cs initial))) (store (run cs initial))) /\
    (forall r, In r (expenses (store (run cs initial))) ->
               registered (expenses_username r) (store (run cs initial)) /\
               (exists dt, parse_date (expenses_Date r) = Some dt) /\
               In (expenses_Category r) categories /\
               (0 <=? expenses_Amount r)%float = true) /\
    (forall r, In r (budgets (store (run cs initial))) ->
               registered (budgets_username r) (store (run cs initial)) /\
               In (budgets_Category r) categories /\
               (0 <=? budgets_Budget r)%float = true).
Proof.
  intros cs Hwf.
  destruct (run_consistent cs initial Hwf initial_consistent) as [Hs [He Hb]].
  rewrite Forall_forall in He, Hb.
  split; [exact Hs|]. split; intros r Hin.
  - exact (He r Hin).
  - exact (Hb r Hin).
Qed.

Lemma reachable_rows_well_formed_witness :
  Forall wf_click
    [Signup "alice" "secret"; Login "alice" "secret";
     AddExpense (mk_date 2024 1 5) "Food" "lunch" 10%float] /\
  forall r,
    In r (expenses (store (run [Signup "alice" "secret"; Login "alice" "secret";
                                AddExpense (mk_date 2024 1 5) "Food" "lunch" 10%float]
                               initial))) ->
    exists dt, parse_date (expenses_Date r) = Some dt.
Proof.
  assert (Hwf : Forall wf_click
                  [Signup "alice" "secret"; Login "alice" "secret";
                   AddExpense (mk_date 2024 1 5) "Food" "lunch" 10%float]).
  { repeat constructor. }
  split; [exact Hwf|].
  intros r Hin.
  exact (proj1 (proj2 (proj1 (proj2 (reachable_rows_well_formed _ Hwf)) r Hin))).
Defined.

Lemma iso_library_reads_iso_dates : reads_iso_dates iso_library.
Proof.
  intros col. cbn [iso_library lib_to_datetime].
  induction 1 as [|s col [dt Hdt] Hcol [stamps [IH Hlen]]]; simpl.
  - exists []. split; reflexivity.
  - rewrite Hdt, IH. eexists. split; [reflexivity|]. simpl. now rewrite Hlen.
Qed.

Lemma consistent_dates_parse (lib : library) (st : state) (u : string) :
  reads_iso_dates lib ->
  consistent st ->
  exists stamps,
    lib_to_datetime lib (map Date (get_expenses u (store st))) = Some stamps /\
    List.length stamps = List.length (get_expenses u (store st)).
Proof.
  intros Hlib [_ [Hexp _]].
  destruct (Hlib (map Date (get_expenses u (store st)))) as [stamps [Hs Hlen]].
  - apply Forall_forall. intros s Hin.
    unfold get_expenses in Hin. rewrite map_map in Hin.
    apply in_map_iff in Hin. destruct Hin as [r [<- Hr]].
    apply filter_In in Hr. destruct Hr as [Hr _].
    rewrite Forall_forall in Hexp. destruct (Hexp r Hr) as [_ [Hd _]]. exact Hd.
  - exists stamps. split; [exact Hs|]. now rewrite Hlen, length_map.
Qed.

Lemma plot_exn (lib : library) (chart : widget) (e : exn) :
  snd (plot lib chart) = Some e -> e = PlotError chart /\ lib_draws lib chart = false.
Proof.
  unfold plot. destruct (lib_draws lib chart); cbn [snd]; [discriminate|].
  intros H. injection H as <-. auto.
Qed.

Lemma and_then_exn (a b : list widget * option exn) (e : exn) :
  snd (and_then a b) = Some e -> snd a = Some e \/ snd b = Some e.
Proof.
  unfold and_then. destruct (snd a) eqn:Ha; cbn [snd]; [rewrite Ha|]; auto.
Qed.

(** With dates that parse, whatever ends the drawing of the dashboard is
    a plotting block that raised. *)
Lemma consistent_page_exn (lib : library) (st : state) (e : exn) :
  reads_iso_dates lib ->
  consistent st ->
  snd (page_of lib st) = Some e ->
  exists chart, e = PlotError chart /\ lib_draws lib chart = false.
Proof.
  intros Hlib Hst. unfold page_of, dashboard.
  destruct (logged_in (session st)); [|discriminate].
  destruct (consistent_dates_parse lib st (username (session st)) Hlib Hst)
    as [stamps [Hstamps Hlen]].
  generalize dependent (get_expenses (username (session st)) (store st)).
  intros frame Hstamps Hlen.
  unfold visualize_expenses.
  destruct frame as [|r rest]; [discriminate|]. cbn [is_empty].
  intros He. apply and_then_exn in He. destruct He as [He | He].
  - unfold tab1 in He. destruct (_ || _); [discriminate|].
    apply plot_exn in He. eauto.
  - apply and_then_exn in He. destruct He as [He | He].
    + destruct (tab2_line_chart lib (r :: rest) stamps ltac:(discriminate) Hstamps Hlen)
        as [Htab _].
      rewrite Htab in He. apply plot_exn in He. eauto.
    + unfold tab3 in He.
      destruct (is_empty (get_budgets (store st))); [discriminate|].
      destruct (is_empty _); [discriminate|].
      apply plot_exn in He. eauto.
Qed.

(** X8.  From a fresh database, through any sequence of clicks with the
    values the widgets let through, pd.to_datetime never raises when the
    dashboard is drawn: every stored date was written by strftime, so the
    Monthly Trend tab parses them all.  The only exception that can end
    the drawing is one raised by a plotting block, and with plotting blocks
    that all run to their end there is none. *)
Theorem dashboard_raises_only_in_plotting :
  forall (lib : library) (cs : list click),
    reads_iso_dates lib ->
    Forall wf_click cs ->
    snd (page_of lib (run cs initial)) <> Some ValueError /\
    (forall e, snd (page_of lib (run cs initial)) = Some e ->
               exists chart, e = PlotError chart /\ lib_draws lib chart = false) /\
    (draws_all lib -> snd (page_of lib (run cs initial)) = None).
Proof.
  intros lib cs Hlib Hwf.
  pose proof (run_consistent cs initial Hwf initial_consistent) as Hst.
  assert (Hexn : forall e, snd (page_of lib (run cs initial)) = Some e ->
                           exists chart, e = PlotError chart /\ lib_draws lib chart = false).
  { intros e He. exact (consistent_page_exn lib _ e Hlib Hst He). }
  split; [|split; [exact Hexn|]].
  - intros He. destruct (Hexn _ He) as [chart [Heq _]]. discriminate.
  - intros Hall.
    destruct (snd (page_of lib (run cs initial))) as [e|] eqn:He; [|reflexivity].
    destruct (Hexn e eq_refl) as [chart [_ Hd]]. rewrite Hall in Hd. discriminate.
Qed.

Lemma dashboard_raises_only_in_plotting_witness :
  reads_iso_dates iso_library /\
  Forall wf_click
    [Signup "alice" "secret"; Login "alice" "secret";
     AddExpense (mk_date 2024 1 5) "Food" "lunch" 10%float;
     SetBudget "Food" 0%float] /\
  snd (page_of iso_library
               (run [Signup "alice" "secret"; Login "alice" "secret";
                     AddExpense (mk_date 2024 1 5) "Food" "lunch" 10%float;
                     SetBudget "Food" 0%float] initial)) <> Some ValueError.
Proof.
  assert (Hwf : Forall wf_click
                  [Signup "alice" "secret"; Login "alice" "secret";
                   AddExpense (mk_date 2024 1 5) "Food" "lunch" 10%float;
                   SetBudget "Food" 0%float]).
  { repeat constructor. }
  split; [exact iso_library_reads_iso_dates|]. split; [exact Hwf|].
  exact (proj1 (dashboard_raises_only_in_plotting iso_library _
                  iso_library_reads_iso_dates Hwf)).
Defined.

Lemma run_grows (cs : list click) :
  forall st,
    (exists us, users (store (run cs st)) = users (store st) ++ us) /\
    (exists es, expenses (store (run cs st)) = expenses (store st) ++ es) /\
    (exists bs, budgets (store (run cs st)) = budgets (store st) ++ bs) /\
    (logged_in (session st) = true -> logged_in (session (run cs st)) = true).
Proof.
  induction cs as [|c cs IH]; intros st; simpl.
  - repeat split; try (exists []; now rewrite app_nil_r); auto.
  - destruct (IH (step c st)) as [[us Hus] [[es Hes] [[bs Hbs] Hlog]]].
    destruct (step_grows c st) as [[us0 Hus0] [[es0 Hes0] [[bs0 Hbs0] Hlog0]]].
    repeat split.
    + exists (us0 ++ us). now rewrite Hus, Hus0, app_assoc.
    + exists (es0 ++ es). now rewrite Hes, Hes0, app_assoc.
    + exists (bs0 ++ bs). now rewrite Hbs, Hbs0, app_assoc.
    + auto.
Qed.

(** X9.  No sequence of clicks deletes or rewrites a stored row or logs
    the user out: after it, each table is the table before followed by
    the rows added, a user who was logged in is still logged in, every
    login accepted before is still accepted, and every user's expense
    listing starts with the listing before. *)
Theorem runs_only_append :
  forall (cs : list click) (st : state),
    (exists us, users (store (run cs st)) = users (store st) ++ us) /\
    (exists es, expenses (store (run cs st)) = expenses (store st) ++ es) /\
    (exists bs, budgets (store (run cs st)) = budgets (store st) ++ bs) /\
    (logged_in (session st) = true -> logged_in (session (run cs st)) = true) /\
    (forall u p, authenticate u p (store st) = true ->
                 authenticate u p (store (run cs st)) = true) /\
    (forall u, exists more,
        get_expenses u (store (run cs st)) = get_expenses u (store st) ++ more).
Proof.
  intros cs st.
  destruct (run_grows cs st) as [[us Hus] [[es Hes] [[bs Hbs] Hlog]]].
  split; [eauto|]. split; [eauto|]. split; [eauto|]. split; [exact Hlog|].
  split.
  - intros u p Hauth. unfold authenticate in *.
    apply truthy_true in Hauth. apply truthy_true.
    apply login_user_is_some in Hauth. apply login_user_is_some.
    destruct Hauth as [r [Hin Hr]]. exists r. split; [|exact Hr].
    rewrite Hus. apply in_or_app. now left.
  - intros u. unfold get_expenses. rewrite Hes, filter_app, map_app. eauto.
Qed.

(** X13.  What one click changes, as the three reads see it.  An
    expense listing changes only by an Add Expense click made while that
    user is logged in, which appends the row with the date as strftime
    writes it and the amount as the REAL column gives it back; the budget
    list changes only by a Set Budget click made while someone is logged
    in, which appends one pair, its budget as the REAL column gives it
    back; the logins accepted change only by a Signup click, which adds
    those of the new username and password. *)
Theorem click_effects :
  forall (c : click) (st : state) (v q : string),
    get_expenses v (store (step c st))
    = get_expenses v (store st)
      ++ match c with
         | AddExpense dt cat desc a =>
             if logged_in (session st) && String.eqb (username (session st)) v
             then [mk_row (strftime dt) cat desc (read_real a)]
             else []
         | _ => []
         end /\
    get_budgets (store (step c st))
    = get_budgets (store st)
      ++ match c with
         | SetBudget cat a => if logged_in (session st) then [(cat, read_real a)] else []
         | _ => []
         end /\
    authenticate v q (store (step c st))
    = authenticate v q (store st)
      || match c with
         | Signup nu np =>
             String.eqb nu v && String.eqb (hash_password np) (hash_password q)
         | _ => false
         end.
Proof.
  intros c st v q.
  destruct c as [nu np | u p | dt cat desc a | cat a]; cbn [step].
  - cbn [store]. rewrite authenticate_register.
    split; [now rewrite app_nil_r|]. split; [now rewrite app_nil_r | reflexivity].
  - cbn [store]. rewrite !app_nil_r, orb_false_r. auto.
  - destruct (logged_in (session st)); cbn [store andb].
    + rewrite get_expenses_add_expense, app_nil_r, orb_false_r. auto.
    + rewrite !app_nil_r, orb_false_r. auto.
  - destruct (logged_in (session st)); cbn [store].
    + rewrite get_budgets_set_budget, app_nil_r, orb_false_r. auto.
    + rewrite !app_nil_r, orb_false_r. auto.
Qed.

End Runs.


(** ** What the charts can hold *)

Section Charts.
Import Script PrimFloat.

Lemma the_pie_prefix (l l' : list widget) (cd : list (string * float)) :
  the_pie l = Some cd -> the_pie (l ++ l') = Some cd.
Proof.
  unfold the_pie. induction l as [|w l IH]; [discriminate|].
  destruct w; simpl; auto.
Qed.

Lemma the_bars_prefix (l l' : list widget) (bars : list merged_row) :
  the_bars l = Some bars -> the_bars (l ++ l') = Some bars.
Proof.
  unfold the_bars. induction l as [|w l IH]; [discriminate|].
  destruct w; simpl; auto.
Qed.

Lemma the_pie_is_category_totals (lib : library) (df : DataFrame) (d : db)
      (cd : list (string * float)) :
  the_pie (fst (visualize_expenses lib df d)) = Some cd -> cd = category_totals df.
Proof.
  intros Hpie.
  apply (the_pie_prefix _ (match snd (visualize_expenses lib df d) with
                           | Some (PlotError chart) => [chart]
                           | _ => []
                           end)) in Hpie.
  fold (requested (visualize_expenses lib df d)) in Hpie.
  revert Hpie. unfold visualize_expenses.
  destruct df as [|r df]; [discriminate|]. cbn [is_empty].
  destruct (later_tabs lib (r :: df) d) as [_ Hrest].
  set (rest := and_then (tab2 lib (r :: df)) (tab3 lib (r :: df) d)) in *.
  destruct (tab1_shape lib (r :: df) ltac:(discriminate))
    as [[_ ->] | [[_ [_ ->]] | [_ [_ ->]]]].
  - change (the_pie (requested
              (and_then ([st_warning "No category data available for pie chart."], None)
                        rest)))
      with (the_pie (requested rest)).
    rewrite Hrest. discriminate.
  - change (the_pie (requested
              (and_then ([pie_chart (category_totals (r :: df))], None) rest)))
      with (Some (category_totals (r :: df))).
    congruence.
  - cbn. congruence.
Qed.

Lemma the_bars_are_joined_rows (lib : library) (df : DataFrame) (d : db)
      (bars : list merged_row) :
  the_bars (fst (visualize_expenses lib df d)) = Some bars ->
  bars = map (joined_row df) (get_budgets d).
Proof.
  intros Hbars.
  apply (the_bars_prefix _ (match snd (visualize_expenses lib df d) with
                            | Some (PlotError chart) => [chart]
                            | _ => []
                            end)) in Hbars.
  fold (requested (visualize_expenses lib df d)) in Hbars.
  apply visualize_expenses_bars in Hbars.
  rewrite tab3_requested_bars in Hbars.
  destruct (is_empty (get_budgets d)); [discriminate | congruence].
Qed.

(** X10.  From a fresh database, through any sequence of clicks with the
    values the widgets let through, the charts of the dashboard stay
    within the five categories: the pie chart has at most five slices, one
    per category and in increasing category order, and every bar of the
    Budget vs Actual tab is for one of the five categories with a budget
    of at least 0. *)
Theorem charts_stay_within_the_categories :
  forall (lib : library) (cs : list click),
    Forall wf_click cs ->
    (forall cd,
        the_pie (fst (page_of lib (run cs initial))) = Some cd ->
        incl (map fst cd) categories /\
        StronglySorted key_lt cd /\
        (List.length cd <= 5)%nat) /\
    (forall bars row,
        the_bars (fst (page_of lib (run cs initial))) = Some bars ->
        In row bars ->
        In (merged_Category row) categories /\
        (0 <=? merged_Budget row)%float = true).
Proof.
  intros lib cs Hwf.
  destruct (run_consistent cs initial Hwf initial_consistent) as [_ [Hexp Hbud]].
  rewrite Forall_forall in Hexp, Hbud.
  set (st := run cs initial) in *.
  unfold page_of, dashboard.
  destruct (logged_in (session st)); [|split; [intros cd H | intros bars row H]; discriminate].
  set (df := get_expenses (username (session st)) (store st)).
  split.
  - intros cd Hpie. apply the_pie_is_category_totals in Hpie. subst cd.
    assert (Hincl : incl (map fst (category_totals df)) categories).
    { intros c Hc. unfold category_totals in Hc.
      rewrite in_groupby_sum_iff, map_map in Hc. cbn [fst] in Hc.
      apply in_map_iff in Hc. destruct Hc as [row [<- Hrow]].
      unfold df, get_expenses in Hrow. apply in_map_iff in Hrow.
      destruct Hrow as [r [<- Hr]]. apply filter_In in Hr. destruct Hr as [Hr _].
      destruct (Hexp r Hr) as [_ [_ [Hcat _]]]. exact Hcat. }
    split; [exact Hincl|]. split; [apply groupby_sum_sorted|].
    rewrite <- (length_map fst).
    apply (NoDup_incl_length (l := map fst (category_totals df)) (l' := categories));
      [|exact Hincl].
    apply sorted_keys_NoDup, groupby_sum_sorted.
  - intros bars row Hbars Hin. apply the_bars_are_joined_rows in Hbars. subst bars.
    apply in_map_iff in Hin. destruct Hin as [[c b] [<- Hcb]].
    unfold get_budgets in Hcb. apply in_map_iff in Hcb.
    destruct Hcb as [r [Heq Hr]]. injection Heq as <- <-.
    destruct (Hbud r Hr) as [_ [Hcat Hnonneg]].
    split; [exact Hcat|].
    unfold joined_row. cbn [with_percentage fst snd merged_Budget].
    apply read_real_nonneg in Hnonneg.
    now rewrite (leb_zero_fillna0 _ Hnonneg).
Qed.

Lemma charts_stay_within_the_categories_witness :
  Forall wf_click
    [Signup "alice" "secret"; Login "alice" "secret";
     AddExpense (mk_date 2024 1 5) "Food" "lunch" 10%float;
     SetBudget "Food" 0%float] /\
  the_pie (fst (page_of iso_library
                        (run [Signup "alice" "secret"; Login "alice" "secret";
                              AddExpense (mk_date 2024 1 5) "Food" "lunch" 10%float;
                              SetBudget "Food" 0%float] initial)))
  = Some [("Food"%string, 10%float)] /\
  incl (map fst [("Food"%string, 10%float)]) categories.
Proof.
  assert (Hwf : Forall wf_click
                  [Signup "alice" "secret"; Login "alice" "secret";
                   AddExpense (mk_date 2024 1 5) "Food" "lunch" 10%float;
                   SetBudget "Food" 0%float]).
  { repeat constructor. }
  split; [exact Hwf|].
  assert (Hpie : the_pie (fst (page_of iso_library
                        (run [Signup "alice" "secret"; Login "alice" "secret";
                              AddExpense (mk_date 2024 1 5) "Food" "lunch" 10%float;
                              SetBudget "Food" 0%float] initial)))
                 = Some [("Food"%string, 10%float)]) by (vm_compute; reflexivity).
  split; [exact Hpie|].
  exact (proj1 (proj1 (charts_stay_within_the_categories iso_library _ Hwf) _ Hpie)).
Defined.

End Charts.

(** ** The slices of the pie do not depend on the order of the rows *)

Section CategoryOrder.

Lemma sorted_keys_unique (l1 : list string) :
  forall l2,
    StronglySorted (fun a b => String.compare a b = Lt) l1 ->
    StronglySorted (fun a b => String.compare a b = Lt) l2 ->
    (forall c, In c l1 <-> In c l2) ->
    l1 = l2.
Proof.
  induction l1 as [|a l1 IH]; intros l2 H1 H2 Hsame.
  - destruct l2 as [|b l2]; [reflexivity|].
    exfalso. apply (proj2 (Hsame b)). now left.
  - destruct l2 as [|b l2]; [exfalso; apply (proj1 (Hsame a)); now left|].
    inversion H1 as [|x l Hs1 Hall1]; subst.
    inversion H2 as [|y l' Hs2 Hall2]; subst.
    rewrite Forall_forall in Hall1, Hall2.
    assert (Hab : a = b).
    { destruct (proj1 (Hsame a) (or_introl eq_refl)) as [Hba | Hin2]; [congruence|].
      destruct (proj2 (Hsame b) (or_introl eq_refl)) as [Hab | Hin1]; [congruence|].
      pose proof (Hall2 _ Hin2) as Hlt1. pose proof (Hall1 _ Hin1) as Hlt2.
      pose proof (string_compare_lt_trans _ _ _ Hlt1 Hlt2) as Hbb.
      rewrite string_compare_refl in Hbb. discriminate. }
    subst b. f_equal. apply IH; [assumption | assumption |].
    intros c. split; intros Hc.
    + destruct (proj1 (Hsame c) (or_intror Hc)) as [Hac | Hin]; [|exact Hin].
      subst c. pose proof (Hall1 _ Hc) as Hlt.
      rewrite string_compare_refl in Hlt. discriminate.
    + destruct (proj2 (Hsame c) (or_intror Hc)) as [Hac | Hin]; [|exact Hin].
      subst c. pose proof (Hall2 _ Hc) as Hlt.
      rewrite string_compare_refl in Hlt. discriminate.
Qed.

Lemma sorted_keys_map_fst (l : list (string * float)) :
  StronglySorted key_lt l ->
  StronglySorted (fun a b => String.compare a b = Lt) (map fst l).
Proof.
  intros Hs. apply (map_sorted key_lt _ fst l); [|exact Hs]. auto.
Qed.

(** X11.  The categories of the category totals, and their order, depend
    only on which categories occur in the frame: two frames with the same
    set of categories (the same rows in another order, say) give the same
    list of categories, in increasing order, each once. *)
Theorem category_order_independent_of_rows :
  forall df df' : DataFrame,
    (forall c, In c (map Category df) <-> In c (map Category df')) ->
    map fst (category_totals df) = map fst (category_totals df') /\
    StronglySorted (fun a b => String.compare a b = Lt) (map fst (category_totals df)).
Proof.
  intros df df' Hsame.
  assert (Hs : forall f, StronglySorted (fun a b => String.compare a b = Lt)
                           (map fst (category_totals f))).
  { intros f. apply sorted_keys_map_fst, groupby_sum_sorted. }
  split; [|apply Hs].
  apply sorted_keys_unique; [apply Hs | apply Hs |].
  intros c. unfold category_totals.
  rewrite !in_groupby_sum_iff, !map_map. cbn [fst]. apply Hsame.
Qed.

Lemma category_order_independent_of_rows_witness :
  map fst (category_totals [mk_row "2024-01-05" "Transport" "bus" 3%float;
                            mk_row "2024-01-06" "Food" "lunch" 10%float])
  = map fst (category_totals [mk_row "2024-02-01" "Food" "tea" 1%float;
                              mk_row "2024-02-02" "Transport" "taxi" 9%float;
                              mk_row "2024-02-03" "Food" "cake" 2%float]).
Proof.
  apply (category_order_independent_of_rows
           [mk_row "2024-01-05" "Transport" "bus" 3%float;
            mk_row "2024-01-06" "Food" "lunch" 10%float]
           [mk_row "2024-02-01" "Food" "tea" 1%float;
            mk_row "2024-02-02" "Transport" "taxi" 9%float;
            mk_row "2024-02-03" "Food" "cake" 2%float]).
  intros c. simpl. tauto.
Defined.

End CategoryOrder.

